(** * Code X Emotion Analyzer: the hard logic of [app.py], embedded and verified

    The development follows [app.py]:
    - [Reconciler]: the label mapping, slot filling and normalisation of
      [get_emotion_from_huggingface];
    - [Preprocess]: the amplitude normalisation of [preprocess_audio];
    - [Store]: [save_recording], the analysis step of [main] and the three
      confidence buttons;
    - [Analytics]: the "most common emotion" metric;
    - [Feedback]: reading [feedback.jsonl] back for the statistics.

    Classifier scores and confidences are Python floats.  They are modelled
    as exact rationals ([Q]), so rounding is left out; every concrete value
    used below (0, 0.3, 0.5, 0.6, 1) gives the same result in binary64.
    Audio samples are modelled with the kernel's IEEE 754 floats, because
    the behaviour of [0.0 / 0.0] is what matters there. *)

From Stdlib Require Import List Bool Arith ZArith QArith Qabs Qfield Lia Permutation.
From Stdlib Require Import Ascii String Floats.
Import ListNotations.

(** ** Python values shared by the components *)

Module Py.

(** The exceptions the modelled code can raise. *)
Inductive Exn : Type :=
| IndexError
| ValueError
| KeyError
| JSONDecodeError
| AudioError
| TypeError.

(** A computation that returns or raises. *)
Inductive res (A : Type) : Type :=
| Ok (a : A)
| Raise (e : Exn).

Arguments Ok {A} a.
Arguments Raise {A} e.

Definition bind {A B : Type} (m : res A) (f : A -> res B) : res B :=
  match m with
  | Ok a => f a
  | Raise e => Raise e
  end.

(** [x > y] on scores. *)
Definition Qltb (x y : Q) : bool := negb (Qle_bool y x).

(** [sum(xs)]: starts from 0 and adds from the left. *)
Definition py_sum (xs : list Q) : Q := fold_left Qplus xs 0.

(** [max(xs)] on numbers: the first of the greatest; [ValueError] on an
    empty sequence. *)
Fixpoint max_from (cur : Q) (xs : list Q) : Q :=
  match xs with
  | [] => cur
  | x :: xs' => if Qltb cur x then max_from x xs' else max_from cur xs'
  end.

Definition py_max (xs : list Q) : res Q :=
  match xs with
  | [] => Raise ValueError
  | x :: xs' => Ok (max_from x xs')
  end.

End Py.

Notation "x <- m ;; f" := (Py.bind m (fun x => f))
  (at level 61, m at next level, right associativity).

(** ** The canonical emotions and the emotion dict *)

(** The keys of [EMOTION_CONFIG], in the order the dict literal lists them. *)
Inductive Emotion : Type :=
| Anger
| Disgust
| Fear
| Happiness
| Neutral
| Sadness
| Surprise.

Definition Emotion_eq_dec (a b : Emotion) : {a = b} + {a <> b}.
Proof. decide equality. Defined.

(** [EMOTION_CONFIG.keys()]. *)
Definition EMOTION_CONFIG_keys : list Emotion :=
  [Anger; Disgust; Fear; Happiness; Neutral; Sadness; Surprise].

(** The key as the string the code writes. *)
Definition label_of (e : Emotion) : string :=
  match e with
  | Anger => "Anger"
  | Disgust => "Disgust"
  | Fear => "Fear"
  | Happiness => "Happiness"
  | Neutral => "Neutral"
  | Sadness => "Sadness"
  | Surprise => "Surprise"
  end.

(** Position in the canonical taxonomy. *)
Definition rank (e : Emotion) : nat :=
  match e with
  | Anger => 0
  | Disgust => 1
  | Fear => 2
  | Happiness => 3
  | Neutral => 4
  | Sadness => 5
  | Surprise => 6
  end.

(** A Python dict keeps its keys in insertion order, and both
    [max(emotions, key=...)] and the comprehension of the normalisation
    iterate in that order: the dict is an association list without repeated
    keys, oldest key first. *)
Definition Dict : Type := list (Emotion * Q).

Module PyDict.

Definition keys (d : Dict) : list Emotion := map fst d.
Definition values (d : Dict) : list Q := map snd d.

(** [k in d] *)
Definition mem (k : Emotion) (d : Dict) : bool :=
  existsb (fun kv => if Emotion_eq_dec k (fst kv) then true else false) d.

(** [d.get(k)] *)
Fixpoint get (k : Emotion) (d : Dict) : option Q :=
  match d with
  | [] => None
  | (k', v) :: d' => if Emotion_eq_dec k k' then Some v else get k d'
  end.

(** [d[k] = v]: an existing key keeps its position, a new key goes last. *)
Fixpoint set (k : Emotion) (v : Q) (d : Dict) : Dict :=
  match d with
  | [] => [(k, v)]
  | (k', v') :: d' =>
      if Emotion_eq_dec k k' then (k, v) :: d' else (k', v') :: set k v d'
  end.

(** [max(d, key=d.get)]: iterates over the keys in insertion order and
    keeps the current best unless the next key has a strictly greater
    value, so the first of the greatest wins. *)
Fixpoint max_key_from (cur : Emotion * Q) (d : Dict) : Emotion :=
  match d with
  | [] => fst cur
  | kv :: d' =>
      if Py.Qltb (snd cur) (snd kv) then max_key_from kv d'
      else max_key_from cur d'
  end.

Definition max_key (d : Dict) : Py.res Emotion :=
  match d with
  | [] => Py.Raise Py.ValueError
  | kv :: d' => Py.Ok (max_key_from kv d')
  end.

(** Same keys in the same order, equal values as rationals. *)
Fixpoint eqb (d1 d2 : Dict) : bool :=
  match d1, d2 with
  | [], [] => true
  | (k1, v1) :: d1', (k2, v2) :: d2' =>
      (if Emotion_eq_dec k1 k2 then true else false)
      && Qeq_bool v1 v2 && eqb d1' d2'
  | _, _ => false
  end.

End PyDict.

(** ** EmotionReconciler: lines 154-184 of [get_emotion_from_huggingface] *)

Module Reconciler.

(** [str.lower()] on the ASCII letters.  A non-ASCII character never
    lowers to a run of letters that completes one of the seven needles,
    so the tests below see the same thing. *)
Definition lower_ascii (c : ascii) : ascii :=
  let n := nat_of_ascii c in
  if (65 <=? n)%nat && (n <=? 90)%nat then ascii_of_nat (n + 32) else c.

Fixpoint lower (s : string) : string :=
  match s with
  | EmptyString => EmptyString
  | String c s' => String (lower_ascii c) (lower s')
  end.

(** [needle in s] on strings. *)
Fixpoint contains (needle s : string) : bool :=
  String.prefix needle s
  || match s with
     | EmptyString => false
     | String _ s' => contains needle s'
     end.

(** One raw classifier entry: [item['label']], [item['score']]. *)
Definition Item : Type := (string * Q)%type.

(** The if/elif chain of lines 159-172: the slot the label is written to,
    if any. *)
Definition map_label (label : string) : option Emotion :=
  let l := lower label in
  if contains "anger" l then Some Anger
  else if contains "disgust" l then Some Disgust
  else if contains "fear" l then Some Fear
  else if contains "happy" l || contains "joy" l then Some Happiness
  else if contains "neutral" l then Some Neutral
  else if contains "sad" l then Some Sadness
  else if contains "surprise" l then Some Surprise
  else None.

(** The body of the [for item in result] loop: an assignment
    [emotions[slot] = score]. *)
Definition step (emotions : Dict) (item : Item) : Dict :=
  match map_label (fst item) with
  | Some e => PyDict.set e (snd item) emotions
  | None => emotions
  end.

(** Lines 154-172. *)
Definition collect (result : list Item) : Dict :=
  fold_left step result [].

(** Lines 175-177: every missing key is added with 0.0. *)
Definition fill_missing (emotions : Dict) : Dict :=
  fold_left
    (fun d e => if PyDict.mem e d then d else PyDict.set e 0 d)
    EMOTION_CONFIG_keys emotions.

(** The dict before normalisation. *)
Definition pre_normalize (result : list Item) : Dict :=
  fill_missing (collect result).

(** Lines 180-182. *)
Definition normalize (emotions : Dict) : Dict :=
  let total := Py.py_sum (PyDict.values emotions) in
  if Py.Qltb 0 total
  then map (fun kv => (fst kv, snd kv / total)) emotions
  else emotions.

(** Lines 154-184: what the function returns for a classifier result. *)
Definition reconcile (result : list Item) : Dict :=
  normalize (pre_normalize result).

(** The test of the branch that writes slot [e]. *)
Definition branch_test (e : Emotion) (l : string) : bool :=
  match e with
  | Anger => contains "anger" l
  | Disgust => contains "disgust" l
  | Fear => contains "fear" l
  | Happiness => contains "happy" l || contains "joy" l
  | Neutral => contains "neutral" l
  | Sadness => contains "sad" l
  | Surprise => contains "surprise" l
  end.

(** The score of the last entry whose label maps to [e], if any. *)
Definition last_score (e : Emotion) (result : list Item) : option Q :=
  fold_left
    (fun acc item =>
       match map_label (fst item) with
       | Some e' => if Emotion_eq_dec e e' then Some (snd item) else acc
       | None => acc
       end)
    result None.

(** The sum of the scores of all entries whose label maps to [e]: the
    fusion rule as the specification words it. *)
Definition summed_score (e : Emotion) (result : list Item) : Q :=
  Py.py_sum
    (map snd
       (filter
          (fun item =>
             match map_label (fst item) with
             | Some e' => if Emotion_eq_dec e e' then true else false
             | None => false
             end)
          result)).

(** The uniform vector the specification asks for on a zero total. *)
Definition uniform : Dict := map (fun e => (e, 1 # 7)) EMOTION_CONFIG_keys.

End Reconciler.

(** ** WaveformPreprocessor: [preprocess_audio] *)

Module Preprocess.

(** The samples [librosa.load] returns.  numpy holds them in binary32 and
    the kernel's floats are binary64; zero, its absolute value, the
    comparison of zeros and 0.0 / 0.0 are the same in both. *)
Definition Buffer : Type := list float.

(** [np.abs(y)] *)
Definition np_abs (y : Buffer) : Buffer := map PrimFloat.abs y.

(** The greater of two samples as [np.max] takes it: NaN wins. *)
Definition fmax (a b : float) : float :=
  if PrimFloat.is_nan a then a
  else if PrimFloat.is_nan b then b
  else if PrimFloat.ltb a b then b else a.

(** [np.max(y)]: [ValueError] on a zero-size array. *)
Definition np_max (y : Buffer) : Py.res float :=
  match y with
  | [] => Py.Raise Py.ValueError
  | x :: y' => Py.Ok (fold_left fmax y' x)
  end.

(** [y / m]: element by element, in IEEE arithmetic.  A zero divisor
    raises nothing: it gives an infinity or NaN. *)
Definition np_div (y : Buffer) (m : float) : Buffer :=
  map (fun x => PrimFloat.div x m) y.

(** What a call leaves behind. *)
Inductive Outcome : Type :=
| Wrote (y : Buffer)
    (** [sf.write(output_path, y, sr)] ran and [output_path] is returned;
        [st.warning] was not called *)
| FellBack (e : Py.Exn)
    (** the handler ran: [st.warning] was called and the caller's
        [audio_path] is returned, nothing written *).

Section WithLibrosa.

(** [librosa.effects.trim(y, top_db=40)[0]]: a slice of [y]. *)
Variable trim : Buffer -> Buffer.

(** Lines 192-209 when the write of line 204 goes through, as it does for
    a .wav path; [loaded] is what [librosa.load] does on the path. *)
Definition preprocess_audio (loaded : Py.res Buffer) : Outcome :=
  match
    (y <- loaded ;;
     let y := trim y in
     peak <- np_max (np_abs y) ;;
     Py.Ok (np_div y peak))
  with
  | Py.Ok y => Wrote y
  | Py.Raise e => FellBack e
  end.

(** [sf.write(output_path, y, sr)] of line 204: it can raise, as
    soundfile does for a path whose extension names no format it writes
    (the path of an upload that is not a .wav is left as it is by the
    [replace] of line 203). *)
Variable sf_write : Buffer -> Py.res unit.

(** Lines 192-209 with the write of line 204 made explicit: an exception
    of the write reaches the same handler. *)
Definition preprocess_audio_writing (loaded : Py.res Buffer) : Outcome :=
  match
    (y <- loaded ;;
     let y := trim y in
     peak <- np_max (np_abs y) ;;
     let y := np_div y peak in
     _ <- sf_write y ;;
     Py.Ok y)
  with
  | Py.Ok y => Wrote y
  | Py.Raise e => FellBack e
  end.

End WithLibrosa.

(** A buffer of [n] samples, all 0.0. *)
Definition silent (n : nat) : Buffer := repeat 0%float n.

End Preprocess.

(** ** RecordingStore: [save_recording] and the uses of the store in [main] *)

Module Store.

Record Recording : Type := mkRecording {
  timestamp : string;
  emotions : Dict;
  dominant_emotion : Emotion;
  confidence : Q;
  intensity : Q;
  audio_path : string;
  language : string
}.

(** [st.session_state] *)
Record SessionState : Type := mkSession {
  recordings : list Recording;
  selected_language : string;
  hf_token : string
}.

Definition with_recordings (rs : list Recording) (st : SessionState)
  : SessionState :=
  {| recordings := rs;
     selected_language := selected_language st;
     hf_token := hf_token st |}.

(** Lines 138-188.  [api] is what the [InferenceClient] call does: the
    list of label/score entries, or an exception.  [None] is the
    function's [return None]. *)
Definition get_emotion_from_huggingface
    (st : SessionState) (api : Py.res (list Reconciler.Item))
  : option Dict :=
  if String.eqb (hf_token st) "" then None
  else
    match api with
    | Py.Ok result => Some (Reconciler.reconcile result)
    | Py.Raise _ => None
    end.

(** Lines 314-325; [now] is [datetime.now().isoformat()]. *)
Definition save_recording
    (emotions : Dict) (audio_path : string) (intensity : Q)
    (now : string) (st : SessionState) : Py.res SessionState :=
  dominant <- PyDict.max_key emotions ;;
  conf <- Py.py_max (PyDict.values emotions) ;;
  Py.Ok
    (with_recordings
       (recordings st
          ++ [ {| timestamp := now;
                  emotions := emotions;
                  dominant_emotion := dominant;
                  confidence := conf;
                  intensity := intensity;
                  audio_path := audio_path;
                  language := selected_language st |} ])
       st).

(** Truth value of a dict: false when empty. *)
Definition truthy (d : Dict) : bool :=
  match d with
  | [] => false
  | _ :: _ => true
  end.

(** Lines 480-484: classify, then store if the result is truthy. *)
Definition analyze
    (api : Py.res (list Reconciler.Item)) (audio_path : string)
    (intensity : Q) (now : string) (st : SessionState)
  : Py.res SessionState :=
  match get_emotion_from_huggingface st api with
  | Some emotions =>
      if truthy emotions
      then save_recording emotions audio_path intensity now st
      else Py.Ok st
  | None => Py.Ok st
  end.

(** [r['confidence'] = c] *)
Definition set_confidence (c : Q) (r : Recording) : Recording :=
  {| timestamp := timestamp r;
     emotions := emotions r;
     dominant_emotion := dominant_emotion r;
     confidence := c;
     intensity := intensity r;
     audio_path := audio_path r;
     language := language r |}.

(** [recs[-1]]: the last recording and the ones before it. *)
Definition split_last (recs : list Recording)
  : Py.res (list Recording * Recording) :=
  match rev recs with
  | [] => Py.Raise Py.IndexError
  | r :: before => Py.Ok (rev before, r)
  end.

(** [recordings[-1]['confidence'] *= factor] *)
Definition adjust_confidence (factor : Q) (recs : list Recording)
  : Py.res (list Recording) :=
  br <- split_last recs ;;
  Py.Ok (fst br ++ [set_confidence (confidence (snd br) * factor) (snd br)]).

(** Line 530 and line 535. *)
Definition increase_confidence := adjust_confidence (11 # 10).
Definition decrease_confidence := adjust_confidence (9 # 10).

(** Line 540: [recordings[-1]['confidence'] = max(emotions.values())],
    where [emotions] is the dict this run of [main] classified. *)
Definition reset_confidence (emotions : Dict) (recs : list Recording)
  : Py.res (list Recording) :=
  c <- Py.py_max (PyDict.values emotions) ;;
  br <- split_last recs ;;
  Py.Ok (fst br ++ [set_confidence c (snd br)]).

(** The three buttons of lines 528-541; [NoButton] is a run in which none
    of them is pressed. *)
Inductive Button : Type :=
| NoButton
| IncreaseButton
| DecreaseButton
| ResetButton.

(** What one run of the script finds outside the session while the audio
    widget holds a recording: what the classifier call does, the path the
    audio is written to, the slider and the clock. *)
Record RunInput : Type := mkRunInput {
  run_api : Py.res (list Reconciler.Item);
  run_path : string;
  run_intensity : Q;
  run_now : string
}.

(** Lines 480-541 in one run of [main]: the analysis and, inside
    [if emotions:] and after [save_recording], the statement of the button
    that is pressed, if any.  [emotions] in line 540 is the dict of this
    run. *)
Definition run_main (button : Button) (inp : RunInput) (st : SessionState)
  : Py.res SessionState :=
  match get_emotion_from_huggingface st (run_api inp) with
  | Some emotions =>
      if truthy emotions
      then
        st1 <- save_recording emotions (run_path inp) (run_intensity inp)
                 (run_now inp) st ;;
        match button with
        | NoButton => Py.Ok st1
        | IncreaseButton =>
            recs <- increase_confidence (recordings st1) ;;
            Py.Ok (with_recordings recs st1)
        | DecreaseButton =>
            recs <- decrease_confidence (recordings st1) ;;
            Py.Ok (with_recordings recs st1)
        | ResetButton =>
            recs <- reset_confidence emotions (recordings st1) ;;
            Py.Ok (with_recordings recs st1)
        end
      else Py.Ok st
  | None => Py.Ok st
  end.

(** One press of a button.  Streamlit runs the script from the top with
    that button true, and the [st.rerun()] that ends the button's branch
    starts the next run, in which no button is pressed; the audio widget
    keeps its value across both. *)
Definition press (button : Button) (inp rerun : RunInput)
    (st : SessionState) : Py.res SessionState :=
  st1 <- run_main button inp st ;;
  run_main NoButton rerun st1.


(** Lines 355-362: the sidebar field shows the current token, and what
    comes back replaces the token only when it is not empty. *)
Definition update_token (api_key : string) (st : SessionState)
  : SessionState :=
  if String.eqb api_key "" then st
  else {| recordings := recordings st;
          selected_language := selected_language st;
          hf_token := api_key |}.

(** [recordings[idx]] for an index that is not negative. *)
Definition get_recording (recs : list Recording) (idx : nat)
  : Py.res Recording :=
  match nth_error recs idx with
  | Some r => Py.Ok r
  | None => Py.Raise Py.IndexError
  end.

(** Lines 546-554: with fewer than two recordings the comparison tab only
    shows a note ([None]); otherwise the selection starts with
    [len - 2] and [len - 1]. *)
Definition default_indices (recs : list Recording) : option (list nat) :=
  if (List.length recs <? 2)%nat then None
  else Some [(List.length recs - 2)%nat; (List.length recs - 1)%nat].

(** One row of [comparison_data]: the number shown ([idx + 1]), the
    dominant emotion named beside it and the seven scores. *)
Definition Row : Type := (nat * Emotion * Dict)%type.

(** Lines 558-564. *)
Fixpoint comparison_data (recs : list Recording) (indices : list nat)
  : Py.res (list Row) :=
  match indices with
  | [] => Py.Ok []
  | idx :: rest =>
      recording <- get_recording recs idx ;;
      rows <- comparison_data recs rest ;;
      Py.Ok (((idx + 1)%nat, dominant_emotion recording, emotions recording)
               :: rows)
  end.

End Store.

(** ** AnalyticsEngine: the "Most Common Emotion" metric of lines 607-628 *)

Module Analytics.

(** [df['Emotion']]: the dominant emotion of every recording, as the
    strings the DataFrame holds. *)
Definition emotion_column (recs : list Store.Recording) : list string :=
  map (fun r => label_of (Store.dominant_emotion r)) recs.

(** Number of rows equal to [x]. *)
Definition occurrences (x : string) (col : list string) : nat :=
  count_occ string_dec col x.

Definition max_occurrences (col : list string) : nat :=
  fold_right Nat.max 0%nat (map (fun x => occurrences x col) col).

(** Ascending sort of strings (pandas sorts the modes). *)
Fixpoint insert_sorted (x : string) (l : list string) : list string :=
  match l with
  | [] => [x]
  | y :: l' => if String.leb x y then x :: l else y :: insert_sorted x l'
  end.

Definition sort_values (l : list string) : list string :=
  fold_right insert_sorted [] l.

(** [Series.mode()]: the values that occur most often, each once, in
    ascending order. *)
Definition mode (col : list string) : list string :=
  sort_values
    (nodup string_dec
       (filter (fun x => occurrences x col =? max_occurrences col)%nat col)).

(** Line 627: [df['Emotion'].mode()[0]]. *)
Definition most_common (recs : list Store.Recording) : Py.res string :=
  match mode (emotion_column recs) with
  | [] => Py.Raise Py.KeyError
  | x :: _ => Py.Ok x
  end.

(** How many recordings have [e] as their dominant emotion. *)
Definition frequency (e : Emotion) (recs : list Store.Recording) : nat :=
  count_occ Emotion_eq_dec (map Store.dominant_emotion recs) e.




End Analytics.

(** ** FeedbackLedger: the statistics of lines 754-774 *)

Module Feedback.

(** The object written by line 746. *)
Record Entry : Type := mkEntry {
  recording_idx : nat;
  predicted_emotion : Emotion;
  correct_emotion : Emotion;
  is_correct : bool;
  feedback_text : string;
  helpfulness : Z;
  timestamp : string
}.

(** A line of [feedback.jsonl], by what [json.loads] makes of it: the
    object it decodes to, or text that is not JSON. *)
Inductive Line : Type :=
| Wellformed (e : Entry)
| Corrupted (text : string).

Definition json_loads (l : Line) : Py.res Entry :=
  match l with
  | Wellformed e => Py.Ok e
  | Corrupted _ => Py.Raise Py.JSONDecodeError
  end.

(** Lines 756-759: the loop appends [json.loads(line)] for each line; no
    handler surrounds the call. *)
Fixpoint read_lines (lines : list Line) (feedback_data : list Entry)
  : Py.res (list Entry) :=
  match lines with
  | [] => Py.Ok feedback_data
  | l :: rest =>
      e <- json_loads l ;;
      read_lines rest (feedback_data ++ [e])
  end.

Record Stats : Type := mkStats {
  accuracy : Q;
  avg_helpfulness : Q;
  total_feedback : nat
}.

Definition count_correct (data : list Entry) : nat :=
  List.length (filter is_correct data).

Definition sum_helpfulness (data : list Entry) : Z :=
  fold_left Z.add (map helpfulness data) 0%Z.

(** Lines 761-774 on the entries read.  A DataFrame built from no rows
    has no columns, and [df_feedback['is_correct']] raises [KeyError]. *)
Definition summarize (data : list Entry) : Py.res Stats :=
  match data with
  | [] => Py.Raise Py.KeyError
  | _ :: _ =>
      let n := inject_Z (Z.of_nat (List.length data)) in
      Py.Ok
        {| accuracy := inject_Z (Z.of_nat (count_correct data)) / n * 100;
           avg_helpfulness := inject_Z (sum_helpfulness data) / n;
           total_feedback := List.length data |}
  end.

(** Lines 754-774 when the file exists. *)
Definition feedback_statistics (lines : list Line) : Py.res Stats :=
  data <- read_lines lines [] ;;
  summarize data.

Definition is_corrupted (l : Line) : bool :=
  match l with
  | Wellformed _ => false
  | Corrupted _ => true
  end.

(** The entries of the well-formed lines, in order: what a reader that
    skips corrupted lines keeps (the specification's reading rule). *)
Fixpoint skip_corrupted (lines : list Line) : list Entry :=
  match lines with
  | [] => []
  | Wellformed e :: rest => e :: skip_corrupted rest
  | Corrupted _ :: rest => skip_corrupted rest
  end.

(** [feedback.jsonl] on disk: absent, or its lines. *)
Definition File : Type := option (list Line).

(** [list(EMOTION_CONFIG.keys()).index(e)] (line 705): [ValueError] when
    the element is not in the list. *)
Fixpoint list_index (e : Emotion) (l : list Emotion) : Py.res nat :=
  match l with
  | [] => Py.Raise Py.ValueError
  | x :: l' =>
      if Emotion_eq_dec e x then Py.Ok 0%nat
      else i <- list_index e l' ;; Py.Ok (S i)
  end.

(** Lines 685 and 732-746: the entry is built from the selected recording
    and the form, and one line is appended to the file, which is created
    when absent.  [json.dumps] of this dict of ints, strings and a bool is
    text that [json.loads] reads back as the same dict. *)
Definition submit_feedback
    (recs : list Store.Recording) (recording_idx : nat)
    (correct : Emotion) (answer_yes : bool) (text : string)
    (rating : Z) (now : string) (file : File) : Py.res File :=
  recording <- Store.get_recording recs recording_idx ;;
  let feedback :=
    {| recording_idx := recording_idx;
       predicted_emotion := Store.dominant_emotion recording;
       correct_emotion := correct;
       is_correct := answer_yes;
       feedback_text := text;
       helpfulness := rating;
       timestamp := now |} in
  Py.Ok
    (Some
       (match file with
        | Some lines => lines
        | None => []
        end ++ [Wellformed feedback])).

(** Lines 754-774: nothing is shown while the file does not exist. *)
Definition feedback_section (file : File) : Py.res (option Stats) :=
  match file with
  | None => Py.Ok None
  | Some lines => stats <- feedback_statistics lines ;; Py.Ok (Some stats)
  end.

End Feedback.

(** * Properties *)

(** ** Numbers and dicts *)

Module PyFacts.

Lemma Qltb_lt (x y : Q) : Py.Qltb x y = true <-> x < y.
Proof.
  unfold Py.Qltb. rewrite negb_true_iff. split; intro H.
  - apply Qnot_le_lt. intro Hle. apply Qle_bool_iff in Hle. congruence.
  - destruct (Qle_bool y x) eqn:E; trivial.
    apply Qle_bool_iff in E. exfalso. exact (Qlt_not_le _ _ H E).
Qed.

Lemma Qltb_ge (x y : Q) : Py.Qltb x y = false <-> y <= x.
Proof.
  unfold Py.Qltb. rewrite negb_false_iff. apply Qle_bool_iff.
Qed.

Lemma fold_Qplus_shift (xs : list Q) (a : Q) :
  fold_left Qplus xs a == a + fold_left Qplus xs 0.
Proof.
  revert a. induction xs as [|x xs IH]; intro a; simpl.
  - ring.
  - rewrite (IH (a + x)), (IH (0 + x)). ring.
Qed.

Lemma py_sum_cons (x : Q) (xs : list Q) :
  Py.py_sum (x :: xs) == x + Py.py_sum xs.
Proof.
  unfold Py.py_sum. simpl. rewrite fold_Qplus_shift. ring.
Qed.

Lemma py_sum_nonneg (xs : list Q) :
  Forall (fun v => 0 <= v) xs -> 0 <= Py.py_sum xs.
Proof.
  induction 1 as [|x xs Hx _ IH].
  - unfold Py.py_sum; simpl. apply Qle_refl.
  - rewrite py_sum_cons.
    setoid_replace 0 with (0 + 0) by ring. now apply Qplus_le_compat.
Qed.

(** Non-negative numbers whose sum is not positive are all zero. *)
Lemma py_sum_zero (xs : list Q) :
  Forall (fun v => 0 <= v) xs -> Py.py_sum xs <= 0 ->
  Forall (fun v => v == 0) xs.
Proof.
  induction 1 as [|x xs Hx Hxs IH]; intro Hs; constructor.
  - rewrite py_sum_cons in Hs. apply Qle_antisym; trivial.
    apply Qle_trans with (x + Py.py_sum xs); trivial.
    setoid_replace x with (x + 0) at 1 by ring.
    apply Qplus_le_compat; [apply Qle_refl | now apply py_sum_nonneg].
  - apply IH. rewrite py_sum_cons in Hs.
    apply Qle_trans with (x + Py.py_sum xs); trivial.
    setoid_replace (Py.py_sum xs) with (0 + Py.py_sum xs) at 1 by ring.
    apply Qplus_le_compat; [trivial | apply Qle_refl].
Qed.

Lemma py_sum_scaled (xs : list Q) (t : Q) :
  Py.py_sum (map (fun v => v / t) xs) == Py.py_sum xs / t.
Proof.
  induction xs as [|x xs IH].
  - unfold Py.py_sum; simpl. unfold Qdiv. ring.
  - simpl map. rewrite !py_sum_cons, IH. unfold Qdiv. ring.
Qed.

Lemma mem_get (k : Emotion) (d : Dict) :
  PyDict.mem k d = match PyDict.get k d with Some _ => true | None => false end.
Proof.
  induction d as [|[k' v] d IH]; simpl; trivial.
  destruct (Emotion_eq_dec k k'); simpl; trivial.
Qed.

Lemma mem_keys (k : Emotion) (d : Dict) :
  PyDict.mem k d = true <-> In k (PyDict.keys d).
Proof.
  induction d as [|[k' v] d IH]; simpl.
  - split; [discriminate | tauto].
  - destruct (Emotion_eq_dec k k') as [->|Hne]; simpl.
    + tauto.
    + rewrite IH. split; [tauto | intros [H|H]; [congruence | trivial]].
Qed.

Lemma get_set (k k' : Emotion) (v : Q) (d : Dict) :
  PyDict.get k (PyDict.set k' v d)
  = if Emotion_eq_dec k k' then Some v else PyDict.get k d.
Proof.
  induction d as [|[k0 v0] d IH]; simpl.
  - destruct (Emotion_eq_dec k k'); trivial.
  - destruct (Emotion_eq_dec k' k0) as [->|Hne]; simpl.
    + destruct (Emotion_eq_dec k k0); trivial.
    + rewrite IH. destruct (Emotion_eq_dec k k0) as [->|]; trivial.
      destruct (Emotion_eq_dec k0 k'); congruence.
Qed.

Lemma keys_set (k : Emotion) (v : Q) (d : Dict) :
  PyDict.keys (PyDict.set k v d)
  = if PyDict.mem k d then PyDict.keys d else PyDict.keys d ++ [k].
Proof.
  induction d as [|[k0 v0] d IH]; simpl; trivial.
  destruct (Emotion_eq_dec k k0) as [->|Hne]; simpl; trivial.
  rewrite IH. now destruct (PyDict.mem k d).
Qed.

Lemma NoDup_keys_set (k : Emotion) (v : Q) (d : Dict) :
  NoDup (PyDict.keys d) -> NoDup (PyDict.keys (PyDict.set k v d)).
Proof.
  intro H. rewrite keys_set. destruct (PyDict.mem k d) eqn:E; trivial.
  apply NoDup_app; trivial.
  - repeat constructor. simpl; tauto.
  - intros x Hx [<-|[]]. apply mem_keys in Hx. congruence.
Qed.

Lemma In_keys_set (k k' : Emotion) (v : Q) (d : Dict) :
  In k (PyDict.keys (PyDict.set k' v d)) <-> k = k' \/ In k (PyDict.keys d).
Proof.
  rewrite keys_set. destruct (PyDict.mem k' d) eqn:E.
  - apply mem_keys in E. split; [tauto | intros [->|H]; trivial].
  - rewrite in_app_iff. simpl. intuition congruence.
Qed.

Lemma values_set (P : Q -> Prop) (k : Emotion) (v : Q) (d : Dict) :
  P v -> Forall P (PyDict.values d) ->
  Forall P (PyDict.values (PyDict.set k v d)).
Proof.
  intros Hv. induction d as [|[k0 v0] d IH]; simpl; intro H.
  - repeat constructor; trivial.
  - inversion H; subst.
    destruct (Emotion_eq_dec k k0); simpl; constructor; auto.
Qed.

Lemma all_emotions (e : Emotion) : In e EMOTION_CONFIG_keys.
Proof. destruct e; simpl; tauto. Qed.

Lemma NoDup_EMOTION_CONFIG_keys : NoDup EMOTION_CONFIG_keys.
Proof.
  unfold EMOTION_CONFIG_keys.
  repeat (constructor; [simpl; intuition discriminate|]). constructor.
Qed.

End PyFacts.

(** ** EmotionReconciler *)

Module ReconcilerFacts.

Import Reconciler.

Lemma fold_left_inv {A B : Type} (f : A -> B -> A) (P : A -> Prop)
    (l : list B) :
  (forall a b, In b l -> P a -> P (f a b)) ->
  forall a, P a -> P (fold_left f l a).
Proof.
  induction l as [|b l IH]; intros Hf a Ha; simpl; trivial.
  apply IH.
  - intros a' b' Hb'. apply Hf. now right.
  - apply Hf; trivial. now left.
Qed.

(** The shape every dict of the function has: no key twice, no negative
    value. *)
Definition well_formed (d : Dict) : Prop :=
  NoDup (PyDict.keys d) /\ Forall (fun v => 0 <= v) (PyDict.values d).

Lemma well_formed_set (k : Emotion) (v : Q) (d : Dict) :
  0 <= v -> well_formed d -> well_formed (PyDict.set k v d).
Proof.
  intros Hv [Hk Hd]. split.
  - now apply PyFacts.NoDup_keys_set.
  - now apply PyFacts.values_set.
Qed.

Lemma well_formed_collect (result : list Item) :
  (forall item, In item result -> 0 <= snd item) ->
  well_formed (collect result).
Proof.
  intro Hpos. unfold collect. apply fold_left_inv.
  - intros d item Hin Hd. unfold step.
    destruct (map_label (fst item)); trivial.
    apply well_formed_set; auto.
  - split; constructor.
Qed.

Lemma well_formed_fill_missing (d : Dict) :
  well_formed d -> well_formed (fill_missing d).
Proof.
  intro Hd. unfold fill_missing. apply fold_left_inv; trivial.
  intros d' e _ Hd'. destruct (PyDict.mem e d'); trivial.
  apply well_formed_set; trivial. apply Qle_refl.
Qed.

(** Filling keeps every key and adds each of the listed ones. *)
Lemma fill_keys (es : list Emotion) (e : Emotion) :
  forall d,
    In e (PyDict.keys d) \/ In e es ->
    In e (PyDict.keys
            (fold_left
               (fun d e => if PyDict.mem e d then d else PyDict.set e 0 d)
               es d)).
Proof.
  induction es as [|e0 es IH]; intros d H; simpl.
  - destruct H as [H|[]]; trivial.
  - apply IH. destruct (PyDict.mem e0 d) eqn:E.
    + destruct H as [H|[<-|H]]; auto. left. now apply PyFacts.mem_keys.
    + rewrite PyFacts.In_keys_set. destruct H as [H|[<-|H]]; auto.
Qed.

Lemma keys_pre_normalize (result : list Item) :
  (forall item, In item result -> 0 <= snd item) ->
  Permutation (PyDict.keys (pre_normalize result)) EMOTION_CONFIG_keys.
Proof.
  intro Hpos. apply NoDup_Permutation.
  - apply well_formed_fill_missing, well_formed_collect, Hpos.
  - apply PyFacts.NoDup_EMOTION_CONFIG_keys.
  - intro e. split; intros _.
    + apply PyFacts.all_emotions.
    + apply fill_keys. right. apply PyFacts.all_emotions.
Qed.

Lemma keys_normalize (d : Dict) :
  PyDict.keys (normalize d) = PyDict.keys d.
Proof.
  unfold normalize. destruct (Py.Qltb 0 _); trivial.
  unfold PyDict.keys. rewrite map_map. reflexivity.
Qed.

Lemma values_normalize_pos (d : Dict) :
  0 < Py.py_sum (PyDict.values d) ->
  PyDict.values (normalize d)
  = map (fun v => v / Py.py_sum (PyDict.values d)) (PyDict.values d).
Proof.
  intro H. unfold normalize. apply PyFacts.Qltb_lt in H. rewrite H.
  unfold PyDict.values. rewrite !map_map. reflexivity.
Qed.

Lemma normalize_not_pos (d : Dict) :
  ~ 0 < Py.py_sum (PyDict.values d) -> normalize d = d.
Proof.
  intro H. unfold normalize.
  destruct (Py.Qltb 0 _) eqn:E; trivial.
  apply PyFacts.Qltb_lt in E. contradiction.
Qed.

(** A result none of whose labels maps anywhere leaves the dict empty. *)
Lemma collect_unmatched (result : list Item) :
  (forall item, In item result -> map_label (fst item) = None) ->
  collect result = [].
Proof.
  intro H. unfold collect.
  apply (fold_left_inv step (fun d => d = [])); trivial.
  intros d item Hin ->. unfold step. now rewrite (H item Hin).
Qed.

(** What one round of the loop does to the slot [e]. *)
Lemma get_step (e : Emotion) (d : Dict) (item : Item) :
  PyDict.get e (step d item)
  = match map_label (fst item) with
    | Some e' => if Emotion_eq_dec e e' then Some (snd item) else PyDict.get e d
    | None => PyDict.get e d
    end.
Proof.
  unfold step. destruct (map_label (fst item)); trivial.
  apply PyFacts.get_set.
Qed.

Lemma get_fold_step (e : Emotion) (result : list Item) :
  forall d,
    PyDict.get e (fold_left step result d)
    = fold_left
        (fun acc item =>
           match map_label (fst item) with
           | Some e' => if Emotion_eq_dec e e' then Some (snd item) else acc
           | None => acc
           end)
        result (PyDict.get e d).
Proof.
  induction result as [|item result IH]; intro d; simpl; trivial.
  rewrite IH, get_step. reflexivity.
Qed.

Lemma get_collect (e : Emotion) (result : list Item) :
  PyDict.get e (collect result) = last_score e result.
Proof. unfold collect. now rewrite get_fold_step. Qed.

Lemma get_fill (es : list Emotion) (e : Emotion) :
  forall d,
    In e es ->
    PyDict.get e
      (fold_left
         (fun d e => if PyDict.mem e d then d else PyDict.set e 0 d) es d)
    = Some (match PyDict.get e d with Some v => v | None => 0 end).
Proof.
  assert (Hkeep : forall es d v,
             PyDict.get e d = Some v ->
             PyDict.get e
               (fold_left
                  (fun d e => if PyDict.mem e d then d else PyDict.set e 0 d)
                  es d) = Some v).
  { clear es. induction es as [|e0 es IH]; intros d v H; simpl; trivial.
    apply IH. destruct (PyDict.mem e0 d) eqn:E; trivial.
    rewrite PyFacts.get_set. destruct (Emotion_eq_dec e e0) as [->|]; trivial.
    rewrite PyFacts.mem_get, H in E. discriminate. }
  induction es as [|e0 es IH]; intros d Hin; simpl; [destruct Hin|].
  destruct (PyDict.get e d) as [v|] eqn:G.
  - apply Hkeep. destruct (PyDict.mem e0 d) eqn:E; trivial.
    rewrite PyFacts.get_set. destruct (Emotion_eq_dec e e0) as [->|]; trivial.
    rewrite PyFacts.mem_get, G in E. discriminate.
  - destruct (Emotion_eq_dec e e0) as [->|Hne].
    + rewrite PyFacts.mem_get, G. apply Hkeep.
      rewrite PyFacts.get_set. now destruct (Emotion_eq_dec e0 e0).
    + destruct Hin as [->|Hin]; [congruence|].
      rewrite IH; trivial.
      destruct (PyDict.mem e0 d); [now rewrite G|].
      rewrite PyFacts.get_set.
      destruct (Emotion_eq_dec e e0); [congruence | now rewrite G].
Qed.

(** [e in ks] on a list of keys. *)
Definition memb (e : Emotion) (ks : list Emotion) : bool :=
  existsb (fun k => if Emotion_eq_dec e k then true else false) ks.

(** The slots in the order in which the classifier first names them. *)
Definition seen_step (ks : list Emotion) (item : Item) : list Emotion :=
  match map_label (fst item) with
  | Some e => if memb e ks then ks else ks ++ [e]
  | None => ks
  end.

Definition first_named (result : list Item) : list Emotion :=
  fold_left seen_step result [].

(** The slots the classifier named, in its order, then the others in
    canonical order. *)
Definition key_order (result : list Item) : list Emotion :=
  first_named result
  ++ filter (fun e => negb (memb e (first_named result))) EMOTION_CONFIG_keys.

Lemma mem_memb (k : Emotion) (d : Dict) :
  PyDict.mem k d = memb k (PyDict.keys d).
Proof.
  unfold PyDict.mem, memb, PyDict.keys.
  induction d as [|kv d IH]; simpl; trivial. now rewrite IH.
Qed.

Lemma keys_step (d : Dict) (item : Item) :
  PyDict.keys (step d item) = seen_step (PyDict.keys d) item.
Proof.
  unfold step, seen_step. destruct (map_label (fst item)); trivial.
  now rewrite PyFacts.keys_set, mem_memb.
Qed.

Lemma keys_fold_step (result : list Item) :
  forall d,
    PyDict.keys (fold_left step result d)
    = fold_left seen_step result (PyDict.keys d).
Proof.
  induction result as [|item result IH]; intro d; simpl; trivial.
  now rewrite IH, keys_step.
Qed.

Lemma keys_fill (es : list Emotion) :
  NoDup es ->
  forall d,
    PyDict.keys
      (fold_left (fun d e => if PyDict.mem e d then d else PyDict.set e 0 d)
         es d)
    = PyDict.keys d ++ filter (fun e => negb (memb e (PyDict.keys d))) es.
Proof.
  induction 1 as [|e0 es Hnot Hnd IH]; intro d; simpl.
  - now rewrite app_nil_r.
  - rewrite IH, <- mem_memb. destruct (PyDict.mem e0 d) eqn:E; simpl; trivial.
    rewrite PyFacts.keys_set, E, <- app_assoc. simpl. do 2 f_equal.
    apply filter_ext_in. intros e He. f_equal.
    unfold memb. rewrite existsb_app. simpl.
    destruct (Emotion_eq_dec e e0) as [->|]; [contradiction|].
    now rewrite !orb_false_r.
Qed.

(** The order of the keys of the returned dict. *)
Lemma keys_reconcile (result : list Item) :
  PyDict.keys (reconcile result) = key_order result.
Proof.
  unfold reconcile, pre_normalize, fill_missing, key_order.
  rewrite keys_normalize, keys_fill by apply PyFacts.NoDup_EMOTION_CONFIG_keys.
  unfold collect. now rewrite keys_fold_step.
Qed.

Lemma map_label_cases (l : string) (e : Emotion) :
  (if contains "anger" l then Some Anger
   else if contains "disgust" l then Some Disgust
   else if contains "fear" l then Some Fear
   else if contains "happy" l || contains "joy" l then Some Happiness
   else if contains "neutral" l then Some Neutral
   else if contains "sad" l then Some Sadness
   else if contains "surprise" l then Some Surprise
   else None) = Some e
  <-> branch_test e l = true
      /\ forall e', (rank e' < rank e)%nat -> branch_test e' l = false.
Proof.
  split.
  - intro H.
    destruct (contains "anger" l) eqn:Ea;
      [|destruct (contains "disgust" l) eqn:Ed;
        [|destruct (contains "fear" l) eqn:Ef;
          [|destruct (contains "happy" l || contains "joy" l) eqn:Eh;
            [|destruct (contains "neutral" l) eqn:En;
              [|destruct (contains "sad" l) eqn:Es;
                [|destruct (contains "surprise" l) eqn:Eu]]]]]];
      inversion H; subst e; (split; [assumption|]);
      intros e' Hr; destruct e'; simpl in Hr |- *;
      solve [assumption | lia].
  - intros [Ht Hfirst].
    pose proof (Hfirst Anger) as Ha. pose proof (Hfirst Disgust) as Hd.
    pose proof (Hfirst Fear) as Hf. pose proof (Hfirst Happiness) as Hh.
    pose proof (Hfirst Neutral) as Hn. pose proof (Hfirst Sadness) as Hs.
    clear Hfirst.
    destruct e; simpl in *;
      repeat match goal with
             | H : (?a < ?b)%nat -> _ |- _ =>
                 first [ specialize (H ltac:(lia)) | clear H ]
             end;
      repeat match goal with
             | H : _ = false |- _ => rewrite H; clear H
             end;
      rewrite Ht; reflexivity.
Qed.

End ReconcilerFacts.

Module ReconcilerSpec.

Import Reconciler ReconcilerFacts.

(** The zero vector, keys in canonical order. *)
Definition zero_vector : Dict := map (fun e => (e, 0)) EMOTION_CONFIG_keys.

(** C1 (as amended).  For every classifier result with non-negative
    scores, [reconcile] returns a dict with exactly the seven canonical
    keys and no negative value.  When the total of the slots is positive
    the values sum to 1.  When it is not, the dict is returned as it is,
    all values zero; in particular a result none of whose labels matches
    a synonym (the empty result included) gives the zero vector, not the
    uniform one. *)
Theorem reconcile_vector (result : list Item) :
  (forall item, In item result -> 0 <= snd item) ->
  Permutation (PyDict.keys (reconcile result)) EMOTION_CONFIG_keys
  /\ Forall (fun v => 0 <= v) (PyDict.values (reconcile result))
  /\ (0 < Py.py_sum (PyDict.values (pre_normalize result)) ->
      Py.py_sum (PyDict.values (reconcile result)) == 1)
  /\ (~ 0 < Py.py_sum (PyDict.values (pre_normalize result)) ->
      reconcile result = pre_normalize result
      /\ Forall (fun v => v == 0) (PyDict.values (reconcile result)))
  /\ ((forall item, In item result -> map_label (fst item) = None) ->
      reconcile result = zero_vector).
Proof.
  intro Hpos.
  assert (Hwf : well_formed (pre_normalize result))
    by apply well_formed_fill_missing, well_formed_collect, Hpos.
  destruct Hwf as [_ Hval].
  unfold reconcile. split; [|split; [|split; [|split]]].
  - rewrite keys_normalize. now apply keys_pre_normalize.
  - destruct (Qlt_le_dec 0 (Py.py_sum (PyDict.values (pre_normalize result))))
      as [Hlt|Hle].
    + rewrite values_normalize_pos by trivial.
      apply Forall_map. revert Hval. apply Forall_impl. intros v Hv.
      unfold Qdiv. apply Qmult_le_0_compat; trivial.
      apply Qinv_le_0_compat, Qlt_le_weak, Hlt.
    + rewrite normalize_not_pos; trivial. now apply Qle_not_lt.
  - intro Hlt. rewrite values_normalize_pos by trivial.
    rewrite PyFacts.py_sum_scaled. unfold Qdiv. apply Qmult_inv_r.
    intro H0. rewrite H0 in Hlt. exact (Qlt_irrefl 0 Hlt).
  - intro Hn. rewrite normalize_not_pos by trivial. split; trivial.
    apply PyFacts.py_sum_zero; trivial. now apply Qnot_lt_le.
  - intro Hnone. unfold pre_normalize.
    rewrite (collect_unmatched _ Hnone). reflexivity.
Qed.

Lemma reconcile_vector_witness :
  Py.py_sum
    (PyDict.values (reconcile [("joy"%string, 0.6); ("sad"%string, 0.3)]))
  == 1.
Proof.
  refine (proj1 (proj2 (proj2
    (reconcile_vector [("joy"%string, 0.6); ("sad"%string, 0.3)] _))) _).
  - intros item [<-|[<-|[]]]; simpl; unfold Qle; simpl; lia.
  - vm_compute. reflexivity.
Defined.

(** C1 as the specification words it fails on the empty result: the
    function returns the zero vector, whose values sum to 0, where the
    specification asks for 1/7 in every slot. *)
Lemma reconcile_empty_not_uniform :
  reconcile [] = zero_vector
  /\ ~ (Qabs (Py.py_sum (PyDict.values (reconcile [])) - 1) <= 1 # 1000000)
  /\ PyDict.eqb (reconcile []) uniform = false
  /\ PyDict.eqb (reconcile [("bored"%string, 0.9)]) uniform = false.
Proof.
  repeat split; try reflexivity.
  intro H. apply Qle_bool_iff in H. vm_compute in H. discriminate.
Qed.

(** C2 (as amended).  Before normalisation a slot holds the score of the
    LAST raw entry whose label maps to it (each entry overwrites the
    slot), or 0 when no entry maps to it; the scores of several entries
    for one slot are not added.  On the joy/happy example the result is
    still Happiness = 1 and every other slot 0. *)
Theorem slot_holds_last_score :
  (forall (result : list Item) (e : Emotion),
      PyDict.get e (pre_normalize result)
      = Some (match last_score e result with Some s => s | None => 0 end))
  /\ PyDict.eqb
       (reconcile [("joy"%string, 0.6); ("happy"%string, 0.3)])
       [(Happiness, 1); (Anger, 0); (Disgust, 0); (Fear, 0); (Neutral, 0);
        (Sadness, 0); (Surprise, 0)]
     = true.
Proof.
  split; [|reflexivity].
  intros result e. unfold pre_normalize, fill_missing.
  rewrite get_fill by apply PyFacts.all_emotions.
  now rewrite get_collect.
Qed.

(** C2 as the specification words it fails: with joy 0.6 and happy 0.3
    the Happiness slot holds 0.3 before normalisation, not the sum 0.9;
    with a third entry the difference shows in the result (Happiness 1/2
    where the sum would give 3/4). *)
Lemma joy_happy_not_summed :
  PyDict.get Happiness
    (pre_normalize [("joy"%string, 0.6); ("happy"%string, 0.3)])
  = Some 0.3
  /\ summed_score Happiness [("joy"%string, 0.6); ("happy"%string, 0.3)]
     == 0.9
  /\ ~ 0.3 == 0.9
  /\ PyDict.eqb
       (reconcile
          [("joy"%string, 0.6); ("happy"%string, 0.3); ("sad"%string, 0.3)])
       [(Happiness, 0.5); (Sadness, 0.5); (Anger, 0); (Disgust, 0);
        (Fear, 0); (Neutral, 0); (Surprise, 0)]
     = true.
Proof.
  repeat split; try reflexivity. discriminate.
Qed.

(** C10.  A raw label is written to the slot of the first branch, in the
    order Anger, Disgust, Fear, Happiness, Neutral, Sadness, Surprise,
    whose substring test holds on the lowercased label, and one round of
    the loop changes no other slot: a label with synonyms of several
    emotions feeds only the earliest of them. *)
Theorem label_feeds_first_matching_slot :
  (forall (label : string) (e : Emotion),
      map_label label = Some e
      <-> branch_test e (lower label) = true
          /\ forall e', (rank e' < rank e)%nat ->
                        branch_test e' (lower label) = false)
  /\ (forall (emotions : Dict) (item : Item) (e : Emotion),
         PyDict.get e (step emotions item)
         = if match map_label (fst item) with
              | Some e' => if Emotion_eq_dec e e' then true else false
              | None => false
              end
           then Some (snd item)
           else PyDict.get e emotions)
  /\ map_label "Sad Anger" = Some Anger
  /\ PyDict.eqb
       (reconcile [("Sad Anger"%string, 0.8)])
       [(Anger, 1); (Disgust, 0); (Fear, 0); (Happiness, 0); (Neutral, 0);
        (Sadness, 0); (Surprise, 0)]
     = true.
Proof.
  split; [|split; [|split; reflexivity]].
  - intros label e. unfold map_label. apply map_label_cases.
  - intros emotions item e. rewrite get_step.
    destruct (map_label (fst item)) as [e'|]; trivial.
    now destruct (Emotion_eq_dec e e').
Qed.

End ReconcilerSpec.

(** ** RecordingStore *)

Module StoreFacts.

Import Store.

(** All values of a dict are at most [v]. *)
Definition bounded_by (v : Q) (d : Dict) : Prop :=
  Forall (fun kv => snd kv <= v) d.

(** [max(d, key=d.get)] splits the dict at the first of its greatest
    values: strictly smaller values before it, none greater after it. *)
Lemma max_key_from_split (d : Dict) :
  forall cur,
  exists before v after,
    cur :: d = before ++ (PyDict.max_key_from cur d, v) :: after
    /\ Forall (fun kv => snd kv < v) before
    /\ bounded_by v after.
Proof.
  induction d as [|kv d IH]; intro cur; simpl.
  - exists [], (snd cur), []. destruct cur; simpl. repeat split; constructor.
  - destruct (Py.Qltb (snd cur) (snd kv)) eqn:E.
    + apply PyFacts.Qltb_lt in E.
      destruct (IH kv) as (before & v & after & Heq & Hb & Ha).
      exists (cur :: before), v, after. simpl. rewrite <- Heq.
      split; [reflexivity | split; [|exact Ha]].
      constructor; trivial.
      apply Qlt_le_trans with (snd kv); trivial.
      destruct before as [|b before]; simpl in Heq;
        injection Heq as Hkv Hd.
      * rewrite Hkv. apply Qle_refl.
      * subst b. inversion Hb; subst. now apply Qlt_le_weak.
    + apply PyFacts.Qltb_ge in E.
      destruct (IH cur) as (before & v & after & Heq & Hb & Ha).
      destruct before as [|b before]; simpl in Heq;
        injection Heq as Hcur Hd.
      * exists [], v, (kv :: after). subst d.
        split; [simpl; now rewrite <- Hcur | split; [constructor|]].
        constructor; trivial. rewrite Hcur in E. exact E.
      * exists (cur :: kv :: before), v, after. subst b.
        split; [simpl; now rewrite <- Hd | split; [|exact Ha]].
        inversion Hb; subst.
        repeat constructor; trivial.
        now apply Qle_lt_trans with (snd cur).
Qed.

Lemma split_last_snoc (before : list Recording) (r : Recording) :
  split_last (before ++ [r]) = Py.Ok (before, r).
Proof.
  unfold split_last. rewrite rev_app_distr. simpl. now rewrite rev_involutive.
Qed.

Lemma set_confidence_twice (c c' : Q) (r : Recording) :
  set_confidence c (set_confidence c' r) = set_confidence c r.
Proof. reflexivity. Qed.

Lemma set_confidence_same (r : Recording) :
  set_confidence (confidence r) r = r.
Proof. now destruct r. Qed.

Lemma adjust_confidence_snoc (factor : Q) (before : list Recording)
    (r : Recording) :
  adjust_confidence factor (before ++ [r])
  = Py.Ok (before ++ [set_confidence (confidence r * factor) r]).
Proof. unfold adjust_confidence. now rewrite split_last_snoc. Qed.

Lemma reset_confidence_snoc (emotions : Dict) (c : Q)
    (before : list Recording) (r : Recording) :
  Py.py_max (PyDict.values emotions) = Py.Ok c ->
  reset_confidence emotions (before ++ [r])
  = Py.Ok (before ++ [set_confidence c r]).
Proof.
  intro H. unfold reset_confidence. rewrite H. simpl.
  now rewrite split_last_snoc.
Qed.

(** What [save_recording] stores for a dict that is not empty. *)
Lemma save_recording_nonempty (kv : Emotion * Q) (d : Dict)
    (path : string) (intensity : Q) (now : string) (st : SessionState) :
  save_recording (kv :: d) path intensity now st
  = Py.Ok
      (with_recordings
         (recordings st
            ++ [ {| timestamp := now;
                    emotions := kv :: d;
                    dominant_emotion := PyDict.max_key_from kv d;
                    confidence := Py.max_from (snd kv) (map snd d);
                    intensity := intensity;
                    audio_path := path;
                    language := selected_language st |} ])
         st).
Proof. reflexivity. Qed.

(** [reconcile] never returns an empty dict. *)
Lemma reconcile_truthy (result : list Reconciler.Item) :
  truthy (Reconciler.reconcile result) = true.
Proof.
  assert (H : In Anger (PyDict.keys (Reconciler.reconcile result))).
  { unfold Reconciler.reconcile. rewrite ReconcilerFacts.keys_normalize.
    apply ReconcilerFacts.fill_keys. right. apply PyFacts.all_emotions. }
  destruct (Reconciler.reconcile result); [destruct H | reflexivity].
Qed.

End StoreFacts.

Module StoreSpec.

Import Store StoreFacts.

(** A session with a token and no recording yet. *)
Definition session0 : SessionState :=
  {| recordings := []; selected_language := "English"; hf_token := "hf_token" |}.

(** The same two labels with equal scores, in the two possible orders. *)
Definition anger_first : list Reconciler.Item :=
  [("anger"%string, 0.5); ("disgust"%string, 0.5)].
Definition disgust_first : list Reconciler.Item :=
  [("disgust"%string, 0.5); ("anger"%string, 0.5)].

(** The vector with Anger = Disgust = 0.5 and every other slot 0. *)
Definition anger_disgust_tie (d : Dict) : bool :=
  forallb
    (fun e =>
       match PyDict.get e d with
       | Some v =>
           Qeq_bool v
             (if Emotion_eq_dec e Anger then 0.5
              else if Emotion_eq_dec e Disgust then 0.5 else 0)
       | None => false
       end)
    EMOTION_CONFIG_keys.

(** C3 (as amended).  For a dict that is not empty, [save_recording]
    appends one recording whose [dominant_emotion] is a key with the
    greatest score; among several keys with the greatest score it is the
    first in the dict's own order: every key before it has a strictly
    smaller score.  For the dict [main] stores, that order is the order in
    which the classifier first named the slots, followed by the slots it did
    not name in canonical order; so with Anger = Disgust = 0.5 the dominant
    emotion is Anger when the classifier lists anger first. *)
Theorem dominant_is_first_maximum :
  (forall (emotions : Dict) (path : string) (intensity : Q) (now : string)
          (st : SessionState),
      emotions <> [] ->
      exists r before v after,
        save_recording emotions path intensity now st
        = Py.Ok (with_recordings (recordings st ++ [r]) st)
        /\ Store.emotions r = emotions
        /\ emotions = before ++ (dominant_emotion r, v) :: after
        /\ Forall (fun kv => snd kv < v) before
        /\ Forall (fun kv => snd kv <= v) after)
  /\ (forall result : list Reconciler.Item,
         PyDict.keys (Reconciler.reconcile result)
         = ReconcilerFacts.key_order result)
  /\ anger_disgust_tie (Reconciler.reconcile anger_first) = true
  /\ PyDict.max_key (Reconciler.reconcile anger_first) = Py.Ok Anger.
Proof.
  split; [|split; [exact ReconcilerFacts.keys_reconcile | split; reflexivity]].
  intros emotions path intensity now st Hne.
  destruct emotions as [|kv d]; [congruence|].
  destruct (max_key_from_split d kv) as (before & v & after & Heq & Hb & Ha).
  eexists _, before, v, after.
  split; [apply save_recording_nonempty|]. simpl.
  repeat split; trivial.
Qed.

Lemma dominant_is_first_maximum_witness :
  exists r before v after,
    save_recording [(Sadness, 0.2); (Fear, 0.4); (Anger, 0.4)]
      "/tmp/a.wav" 0.5 "2024-01-01T00:00:00" session0
    = Py.Ok (with_recordings (recordings session0 ++ [r]) session0)
    /\ Store.emotions r = [(Sadness, 0.2); (Fear, 0.4); (Anger, 0.4)]
    /\ [(Sadness, 0.2); (Fear, 0.4); (Anger, 0.4)]
       = before ++ (dominant_emotion r, v) :: after
    /\ Forall (fun kv => snd kv < v) before
    /\ Forall (fun kv => snd kv <= v) after.
Proof.
  apply (proj1 dominant_is_first_maximum). discriminate.
Defined.

(** C3 as the specification words it fails: when the classifier lists
    disgust before anger, the vector is the same (Anger = Disgust = 0.5,
    the rest 0) and the recording stored by [main] has Disgust as its
    dominant emotion. *)
Lemma tie_follows_classifier_order :
  anger_disgust_tie (Reconciler.reconcile disgust_first) = true
  /\ PyDict.max_key (Reconciler.reconcile disgust_first) = Py.Ok Disgust
  /\ exists st',
       analyze (Py.Ok disgust_first) "/tmp/a.wav" 0.5
         "2024-01-01T00:00:00" session0 = Py.Ok st'
       /\ map dominant_emotion (recordings st') = [Disgust].
Proof.
  split; [reflexivity | split; [reflexivity|]].
  eexists. split; reflexivity.
Qed.

(** The analysis step never raises. *)
Lemma analyze_total (api : Py.res (list Reconciler.Item)) (path : string)
    (intensity : Q) (now : string) (st : SessionState) :
  exists st', analyze api path intensity now st = Py.Ok st'.
Proof.
  unfold analyze, get_emotion_from_huggingface.
  destruct (String.eqb (hf_token st) ""); [now exists st|].
  destruct api as [result|e]; [|now exists st].
  rewrite reconcile_truthy.
  destruct (Reconciler.reconcile result) as [|kv d] eqn:E.
  - pose proof (reconcile_truthy result) as H. rewrite E in H. discriminate.
  - rewrite save_recording_nonempty. eauto.
Qed.

(** C4.  When no token is configured or the classifier call raises, the
    analysis step returns the session as it was: nothing is appended.  A
    step that does change the session appends exactly one recording, and
    its vector is the reconciled result of a classifier call that
    returned. *)
Theorem failed_classification_leaves_store
    (api : Py.res (list Reconciler.Item)) (path : string) (intensity : Q)
    (now : string) (st : SessionState) :
  (hf_token st = ""%string \/ (exists e, api = Py.Raise e) ->
   analyze api path intensity now st = Py.Ok st)
  /\ (forall st',
         analyze api path intensity now st = Py.Ok st' ->
         st' = st
         \/ exists result r,
              api = Py.Ok result
              /\ hf_token st <> ""%string
              /\ st' = with_recordings (recordings st ++ [r]) st
              /\ emotions r = Reconciler.reconcile result).
Proof.
  unfold analyze, get_emotion_from_huggingface. split.
  - intros [Htok|[e ->]].
    + now rewrite Htok.
    + now destruct (String.eqb (hf_token st) "").
  - intros st' H.
    destruct (String.eqb (hf_token st) "") eqn:Etok;
      [left; congruence|].
    destruct api as [result|e]; [|left; congruence].
    rewrite reconcile_truthy in H. right. exists result.
    destruct (Reconciler.reconcile result) as [|kv d] eqn:E.
    + pose proof (reconcile_truthy result) as Ht. rewrite E in Ht.
      discriminate.
    + rewrite save_recording_nonempty in H. injection H as <-.
      eexists. split; [reflexivity|]. split.
      * intro Hempty. rewrite Hempty in Etok. discriminate.
      * split; reflexivity.
Qed.

Lemma failed_classification_leaves_store_witness :
  analyze (Py.Raise Py.ValueError) "/tmp/a.wav" 0.5 "2024-01-01T00:00:00"
    session0 = Py.Ok session0
  /\ analyze (Py.Ok anger_first) "/tmp/a.wav" 0.5 "2024-01-01T00:00:00"
       (mkSession [] "English" "") = Py.Ok (mkSession [] "English" "").
Proof.
  split.
  - apply (proj1 (failed_classification_leaves_store
                    (Py.Raise Py.ValueError) "/tmp/a.wav" 0.5
                    "2024-01-01T00:00:00" session0)).
    right. exists Py.ValueError. reflexivity.
  - apply (proj1 (failed_classification_leaves_store
                    (Py.Ok anger_first) "/tmp/a.wav" 0.5
                    "2024-01-01T00:00:00" (mkSession [] "English" ""))).
    left. reflexivity.
Defined.



(** A run in which no button is pressed is the analysis step alone. *)
Lemma run_main_no_button (inp : RunInput) (st : SessionState) :
  run_main NoButton inp st
  = analyze (run_api inp) (run_path inp) (run_intensity inp) (run_now inp)
      st.
Proof.
  unfold run_main, analyze.
  destruct (get_emotion_from_huggingface st (run_api inp)) as [d|]; trivial.
  destruct (truthy d); trivial.
  now destruct (save_recording d (run_path inp) (run_intensity inp)
                  (run_now inp) st).
Qed.

(** The classifier answers sad 0.8 and joy 0.2 at every run. *)
Definition sad_input : RunInput :=
  mkRunInput (Py.Ok [("sad"%string, 0.8); ("joy"%string, 0.2)])
    "/tmp/recorded_audio.wav" 0.5 "2024-01-01T00:00:00".



(** C7.  An adjustment of the confidence multiplies the confidence of the
    last recording and changes nothing else: the recordings before it are
    the same, and the last one keeps its vector (not renormalised), its
    dominant emotion, timestamp, language, intensity and audio path. *)
Theorem adjust_confidence_frame
    (factor : Q) (before : list Recording) (r : Recording) :
  exists r',
    adjust_confidence factor (before ++ [r]) = Py.Ok (before ++ [r'])
    /\ confidence r' = confidence r * factor
    /\ emotions r' = emotions r
    /\ dominant_emotion r' = dominant_emotion r
    /\ timestamp r' = timestamp r
    /\ language r' = language r
    /\ Store.intensity r' = Store.intensity r
    /\ audio_path r' = audio_path r.
Proof.
  exists (set_confidence (confidence r * factor) r).
  split; [apply adjust_confidence_snoc|]. repeat split.
Qed.

(** On an empty store the adjustment raises and stores nothing. *)
Lemma adjust_confidence_empty (factor : Q) :
  adjust_confidence factor [] = Py.Raise Py.IndexError.
Proof. reflexivity. Qed.

End StoreSpec.

(** ** WaveformPreprocessor *)

Module PreprocessSpec.

Import Preprocess.

Lemma np_abs_silent (n : nat) : np_abs (silent n) = silent n.
Proof.
  unfold np_abs, silent. induction n as [|n IH]; simpl; trivial.
  now rewrite IH.
Qed.

Lemma fold_fmax_silent (n : nat) :
  fold_left fmax (silent n) 0%float = 0%float.
Proof. unfold silent. induction n as [|n IH]; simpl; trivial. Qed.

Lemma np_max_silent (n : nat) : np_max (silent (S n)) = Py.Ok 0%float.
Proof.
  change (np_max (silent (S n)))
    with (Py.Ok (fold_left fmax (silent n) 0%float)).
  now rewrite fold_fmax_silent.
Qed.

(** Dividing silence by its peak gives NaN in every sample. *)
Lemma np_div_silent (n : nat) : np_div (silent n) 0%float = repeat nan n.
Proof.
  unfold np_div, silent. induction n as [|n IH]; simpl; trivial.
  now rewrite IH.
Qed.

(** The path that does what the specification asks: when nothing is left
    after trimming, [np.max] raises, the handler warns and the caller's
    audio is returned. *)
Lemma empty_after_trim_falls_back (trim : Buffer -> Buffer) (n : nat) :
  trim (silent n) = [] ->
  preprocess_audio trim (Py.Ok (silent n)) = FellBack Py.ValueError.
Proof. intro H. unfold preprocess_audio. simpl. now rewrite H. Qed.

(** C5 (the code departs from it).  For a silent buffer of which the
    trimming keeps at least one sample, [preprocess_audio] raises nothing
    and calls no warning, and it does not skip the normalisation either:
    the division 0.0 / 0.0 is carried out and the buffer written out has
    NaN in every sample, not the silent signal. *)
Theorem silent_buffer_becomes_nan
    (trim : Buffer -> Buffer) (n m : nat) :
  trim (silent n) = silent (S m) ->
  preprocess_audio trim (Py.Ok (silent n)) = Wrote (repeat nan (S m))
  /\ Forall (fun x => PrimFloat.is_nan x = true) (repeat nan (S m))
  /\ repeat nan (S m) <> silent (S m).
Proof.
  intro H. split; [|split].
  - unfold preprocess_audio. simpl Py.bind. rewrite H.
    rewrite np_abs_silent, np_max_silent. simpl Py.bind.
    now rewrite np_div_silent.
  - apply Forall_forall. intros x Hx. apply repeat_spec in Hx. now subst x.
  - intro Heq.
    apply (f_equal (fun y => match y with
                             | x :: _ => PrimFloat.is_nan x
                             | [] => false
                             end)) in Heq.
    discriminate Heq.
Qed.

Lemma silent_buffer_becomes_nan_witness :
  preprocess_audio (fun y => y) (Py.Ok [0%float; 0%float; 0%float])
  = Wrote [nan; nan; nan].
Proof.
  apply (proj1 (silent_buffer_becomes_nan (fun y => y) 3 2 eq_refl)).
Defined.

End PreprocessSpec.

(** ** FeedbackLedger *)

Module FeedbackSpec.

Import Feedback.

Lemma read_lines_all_or_nothing (lines : list Line) :
  forall acc,
    read_lines lines acc
    = if existsb is_corrupted lines
      then Py.Raise Py.JSONDecodeError
      else Py.Ok (acc ++ skip_corrupted lines).
Proof.
  induction lines as [|[e|text] lines IH]; intro acc; simpl.
  - now rewrite app_nil_r.
  - rewrite IH. destruct (existsb is_corrupted lines); trivial.
    now rewrite <- app_assoc.
  - reflexivity.
Qed.

(** C8 (as amended).  Reading the log is all or nothing: when one line
    is corrupted, [json.loads] raises, nothing handles it and no
    statistic is computed; when every line is well formed, the statistics
    are those of all the entries, in order. *)
Theorem feedback_statistics_all_or_nothing (lines : list Line) :
  feedback_statistics lines
  = if existsb is_corrupted lines
    then Py.Raise Py.JSONDecodeError
    else summarize (skip_corrupted lines).
Proof.
  unfold feedback_statistics. rewrite read_lines_all_or_nothing.
  now destruct (existsb is_corrupted lines).
Qed.

Definition entry_ok : Entry :=
  mkEntry 0 Anger Anger true "" 4 "2024-01-01T00:00:00".
Definition entry_wrong : Entry :=
  mkEntry 1 Fear Sadness false "" 2 "2024-01-01T00:05:00".

(** C8 as the specification words it fails: with a corrupted line between
    two well-formed ones the statistics are not those of the two entries
    that a skipping reader keeps; the read raises. *)
Lemma corrupted_line_is_fatal :
  feedback_statistics
    [Wellformed entry_ok; Corrupted "{'idx': "; Wellformed entry_wrong]
  = Py.Raise Py.JSONDecodeError
  /\ skip_corrupted
       [Wellformed entry_ok; Corrupted "{'idx': "; Wellformed entry_wrong]
     = [entry_ok; entry_wrong]
  /\ summarize [entry_ok; entry_wrong]
     = Py.Ok (mkStats (inject_Z 1 / inject_Z 2 * 100)
                      (inject_Z 6 / inject_Z 2) 2)
  /\ feedback_statistics
       [Wellformed entry_ok; Corrupted "{'idx': "; Wellformed entry_wrong]
     <> summarize
          (skip_corrupted
             [Wellformed entry_ok; Corrupted "{'idx': ";
              Wellformed entry_wrong]).
Proof.
  repeat split; try reflexivity. discriminate.
Qed.

End FeedbackSpec.

(** ** AnalyticsEngine *)

Module AnalyticsFacts.

Import Analytics.

Definition is_label (x : string) : Prop := exists e, x = label_of e.

(** On the seven labels the order of strings is the canonical order. *)
Lemma leb_label_rank (a b : Emotion) :
  String.leb (label_of a) (label_of b) = (rank a <=? rank b)%nat.
Proof. destruct a, b; reflexivity. Qed.

Lemma label_of_inj (a b : Emotion) : label_of a = label_of b -> a = b.
Proof. destruct a, b; simpl; intro H; trivial; discriminate H. Qed.

Lemma leb_label_trans (x y z : string) :
  is_label x -> is_label y -> is_label z ->
  String.leb x y = true -> String.leb y z = true -> String.leb x z = true.
Proof.
  intros [a ->] [b ->] [c ->]. rewrite !leb_label_rank, !Nat.leb_le. lia.
Qed.

Lemma leb_label_refl (x : string) : is_label x -> String.leb x x = true.
Proof. intros [a ->]. rewrite leb_label_rank. apply Nat.leb_refl. Qed.

Lemma insert_sorted_not_nil (x : string) (l : list string) :
  insert_sorted x l <> [].
Proof. destruct l as [|y l]; simpl; [|destruct (String.leb x y)]; discriminate. Qed.

(** The first of the sorted labels is one of them and is below all. *)
Lemma sort_values_head (l : list string) :
  Forall is_label l ->
  forall h t,
    sort_values l = h :: t ->
    In h l /\ forall y, In y l -> String.leb h y = true.
Proof.
  induction 1 as [|x l Hx Hl IH]; intros h t Hs; [discriminate|].
  simpl in Hs. destruct (sort_values l) as [|h' t'] eqn:E.
  - destruct l as [|x' l'];
      [|simpl in E; exfalso; exact (insert_sorted_not_nil _ _ E)].
    simpl in Hs. injection Hs as <- _. split; [now left|].
    intros y [<-|[]]. now apply leb_label_refl.
  - destruct (IH h' t' eq_refl) as [Hin Hmin].
    assert (Hh' : is_label h')
      by (rewrite Forall_forall in Hl; auto).
    simpl in Hs. destruct (String.leb x h') eqn:Ex; injection Hs as <- _.
    + split; [now left|]. intros y [<-|Hy].
      * now apply leb_label_refl.
      * apply leb_label_trans with h'; auto.
        rewrite Forall_forall in Hl; auto.
    + split; [now right|]. intros y [<-|Hy]; auto.
      destruct (String.leb_total x h') as [H|H]; congruence.
Qed.

Lemma sort_values_not_nil (l : list string) :
  l <> [] -> sort_values l <> [].
Proof.
  destruct l as [|x l]; [congruence|]. intros _. simpl.
  apply insert_sorted_not_nil.
Qed.

Lemma le_fold_max (f : string -> nat) (x : string) (col : list string) :
  In x col -> (f x <= fold_right Nat.max 0%nat (map f col))%nat.
Proof.
  induction col as [|y col IH]; intro Hin; [destruct Hin|]. simpl.
  destruct Hin as [->|Hin]; [lia|]. specialize (IH Hin). lia.
Qed.

Lemma occurrences_le_max (x : string) (col : list string) :
  (occurrences x col <= max_occurrences col)%nat.
Proof.
  destruct (in_dec string_dec x col) as [Hin|Hout].
  - exact (le_fold_max (fun y => occurrences y col) x col Hin).
  - unfold occurrences. rewrite (proj1 (count_occ_not_In _ _ _) Hout). lia.
Qed.

Lemma max_attained (f : string -> nat) (col : list string) :
  col <> [] ->
  exists x, In x col /\ f x = fold_right Nat.max 0%nat (map f col).
Proof.
  induction col as [|y col IH]; [congruence|]. intros _.
  destruct col as [|z col].
  - exists y. simpl. split; [now left | lia].
  - destruct IH as (x & Hx & Hfx); [discriminate|].
    change (map f (y :: z :: col)) with (f y :: map f (z :: col)).
    change (fold_right Nat.max 0%nat (f y :: map f (z :: col)))
      with (Nat.max (f y) (fold_right Nat.max 0%nat (map f (z :: col)))).
    rewrite <- Hfx.
    destruct (Nat.max_spec (f y) (f x)) as [[_ ->]|[_ ->]].
    + exists x. split; [now right | reflexivity].
    + exists y. split; [now left | reflexivity].
Qed.

(** Counting a label in the column is counting the emotion. *)
Lemma occurrences_frequency (e : Emotion) (recs : list Store.Recording) :
  occurrences (label_of e) (emotion_column recs) = frequency e recs.
Proof.
  unfold occurrences, frequency, emotion_column.
  induction recs as [|r recs IH]; simpl; trivial.
  destruct (string_dec (label_of (Store.dominant_emotion r)) (label_of e))
    as [Heq|Hne];
    destruct (Emotion_eq_dec (Store.dominant_emotion r) e) as [Ee|Ene].
  - now rewrite IH.
  - apply label_of_inj in Heq. contradiction.
  - subst e. congruence.
  - exact IH.
Qed.

Lemma emotion_column_labels (recs : list Store.Recording) :
  Forall is_label (emotion_column recs).
Proof.
  apply Forall_forall. intros x Hx. apply in_map_iff in Hx.
  destruct Hx as (r & <- & _). now eexists.
Qed.

(** The modes before sorting: in the column, with the greatest count. *)
Lemma in_modes (x : string) (col : list string) :
  In x
    (nodup string_dec
       (filter (fun x => occurrences x col =? max_occurrences col)%nat col))
  <-> In x col /\ occurrences x col = max_occurrences col.
Proof.
  rewrite nodup_In, filter_In, Nat.eqb_eq. reflexivity.
Qed.

End AnalyticsFacts.

Module AnalyticsSpec.

Import Analytics AnalyticsFacts.

(** C9.  For every store that is not empty, the "most common emotion" is
    a dominant emotion of the greatest frequency, and among the emotions
    with that frequency it is the earliest in canonical order (pandas
    returns the modes sorted, and the labels sort alphabetically in
    canonical order). *)
Theorem most_common_is_first_mode (recs : list Store.Recording) :
  recs <> [] ->
  exists e,
    most_common recs = Py.Ok (label_of e)
    /\ (0 < frequency e recs)%nat
    /\ (forall e', (frequency e' recs <= frequency e recs)%nat)
    /\ (forall e', frequency e' recs = frequency e recs ->
                   (rank e <= rank e')%nat).
Proof.
  intro Hne. unfold most_common, mode.
  set (col := emotion_column recs).
  set (modes := nodup string_dec
                  (filter (fun x => occurrences x col =? max_occurrences col)%nat
                     col)).
  assert (Hcol : col <> []).
  { unfold col, emotion_column. destruct recs; [congruence | discriminate]. }
  assert (Hmodes : modes <> []).
  { destruct (max_attained (fun x => occurrences x col) col Hcol)
      as (x & Hx & Hmax).
    assert (Hin : In x modes) by (apply in_modes; split; trivial).
    intro Hnil. rewrite Hnil in Hin. destruct Hin. }
  assert (Hlab : Forall is_label modes).
  { apply Forall_forall. intros x Hx. apply in_modes in Hx.
    pose proof (emotion_column_labels recs) as H.
    rewrite Forall_forall in H. apply H, Hx. }
  destruct (sort_values modes) as [|h t] eqn:Es.
  - exfalso. exact (sort_values_not_nil modes Hmodes Es).
  - destruct (sort_values_head modes Hlab h t Es) as [Hin Hmin].
    apply in_modes in Hin. destruct Hin as [Hhcol Hhmax].
    assert (Hh : is_label h).
    { pose proof (emotion_column_labels recs) as H.
      rewrite Forall_forall in H. now apply H. }
    destruct Hh as [e ->]. exists e.
    fold col in Hhmax. unfold col in Hhmax, Hhcol.
    rewrite occurrences_frequency in Hhmax.
    assert (Hle : forall e', (frequency e' recs <= frequency e recs)%nat).
    { intro e'. rewrite Hhmax, <- occurrences_frequency.
      apply occurrences_le_max. }
    assert (Hpos : (0 < frequency e recs)%nat).
    { rewrite <- occurrences_frequency. unfold occurrences.
      now apply count_occ_In. }
    split; [reflexivity|]. split; [exact Hpos|]. split; [exact Hle|].
    intros e' Heq.
    assert (He' : In (label_of e') modes).
    { apply in_modes. fold col. unfold col.
      rewrite occurrences_frequency. split; [|congruence].
      apply (count_occ_In string_dec). fold (occurrences (label_of e')
        (emotion_column recs)). rewrite occurrences_frequency. lia. }
    specialize (Hmin _ He'). rewrite leb_label_rank in Hmin.
    now apply Nat.leb_le.
Qed.

Definition rec_of (e : Emotion) : Store.Recording :=
  Store.mkRecording "2024-01-01T00:00:00" [(e, 1)] e 1 0.5 "/tmp/a.wav"
    "English".

Lemma most_common_is_first_mode_witness :
  exists e,
    most_common [rec_of Sadness; rec_of Fear; rec_of Sadness; rec_of Fear;
                 rec_of Anger]
    = Py.Ok (label_of e)
    /\ (0 < frequency e
              [rec_of Sadness; rec_of Fear; rec_of Sadness; rec_of Fear;
               rec_of Anger])%nat
    /\ (forall e',
           (frequency e'
              [rec_of Sadness; rec_of Fear; rec_of Sadness; rec_of Fear;
               rec_of Anger]
            <= frequency e
                 [rec_of Sadness; rec_of Fear; rec_of Sadness; rec_of Fear;
                  rec_of Anger])%nat)
    /\ (forall e',
           frequency e'
             [rec_of Sadness; rec_of Fear; rec_of Sadness; rec_of Fear;
              rec_of Anger]
           = frequency e
               [rec_of Sadness; rec_of Fear; rec_of Sadness; rec_of Fear;
                rec_of Anger] ->
           (rank e <= rank e')%nat).
Proof.
  apply (most_common_is_first_mode
           [rec_of Sadness; rec_of Fear; rec_of Sadness; rec_of Fear;
            rec_of Anger]).
  discriminate.
Defined.

(** On that store Fear and Sadness both occur twice and Fear is
    reported. *)
Example most_common_tie :
  most_common [rec_of Sadness; rec_of Fear; rec_of Sadness; rec_of Fear;
               rec_of Anger]
  = Py.Ok "Fear"%string.
Proof. reflexivity. Qed.

End AnalyticsSpec.

(** * Further properties of the code *)

(** ** The label mapping and the normalisation *)

Module ReconcilerMore.

Import Reconciler ReconcilerFacts.

(** Whether an entry is written to a slot at all. *)
Definition matched (item : Item) : bool :=
  match map_label (fst item) with
  | Some _ => true
  | None => false
  end.

Lemma fold_step_filter_matched (result : list Item) :
  forall d,
    fold_left step result d = fold_left step (filter matched result) d.
Proof.
  induction result as [|item result IH]; intro d; simpl; trivial.
  destruct (matched item) eqn:M; simpl; [apply IH|].
  rewrite <- IH. f_equal. unfold step. unfold matched in M.
  now destruct (map_label (fst item)).
Qed.

(** Entries whose label matches no branch leave no trace: the function
    returns what it returns on the matching entries alone. *)
Theorem unmatched_entries_are_discarded (result : list Item) :
  reconcile result = reconcile (filter matched result).
Proof.
  unfold reconcile, pre_normalize, collect.
  now rewrite fold_step_filter_matched.
Qed.

Lemma prefix_split (needle s : string) :
  String.prefix needle s = true <-> exists post, s = (needle ++ post)%string.
Proof.
  revert s. induction needle as [|c needle IH]; intro s; simpl.
  - split; [intros _; exists s; reflexivity | intros _; now destruct s].
  - destruct s as [|c' s].
    + split; [discriminate | intros [post H]; discriminate].
    + simpl. destruct (Ascii.ascii_dec c c') as [->|Hne].
      * rewrite IH. split; intros [post H]; exists post.
        -- now rewrite H.
        -- now injection H.
      * split; [discriminate|]. intros [post H]. injection H as H1 _.
        congruence.
Qed.

Lemma contains_nil (needle : string) :
  contains needle EmptyString = String.prefix needle EmptyString.
Proof. unfold contains. apply orb_false_r. Qed.

Lemma contains_cons (needle : string) (c : ascii) (s : string) :
  contains needle (String c s)
  = String.prefix needle (String c s) || contains needle s.
Proof. reflexivity. Qed.

Lemma contains_split (needle s : string) :
  contains needle s = true
  <-> exists pre post, s = (pre ++ needle ++ post)%string.
Proof.
  induction s as [|c s IH].
  - rewrite contains_nil, prefix_split. split.
    + intros [post H]. exists EmptyString, post. exact H.
    + intros (pre & post & H).
      destruct pre as [|c pre]; [|discriminate]. now exists post.
  - rewrite contains_cons, orb_true_iff, prefix_split, IH. split.
    + intros [[post H]|(pre & post & H)].
      * exists EmptyString, post. exact H.
      * exists (String c pre), post. simpl. now rewrite H.
    + intros (pre & post & H). destruct pre as [|c' pre]; simpl in H.
      * left. now exists post.
      * right. injection H as _ H. now exists pre, post.
Qed.

(** The test [needle in label.lower()] of the branches holds exactly
    when the needle occurs in the lowercased label as a run of consecutive
    characters; so a label goes to Anger exactly when its lowercased form
    reads ...anger..., whatever else it holds. *)
Theorem anger_iff_substring (label : string) :
  map_label label = Some Anger
  <-> exists pre post, lower label = (pre ++ "anger" ++ post)%string.
Proof.
  rewrite <- contains_split. unfold map_label.
  destruct (contains "anger" (lower label)); [tauto|].
  repeat match goal with
         | |- context [if ?b then _ else _] => destruct b
         end; split; intro H; discriminate H.
Qed.




End ReconcilerMore.

(** ** The scores of the returned dict, slot by slot *)

Module SlotFacts.

Import Reconciler ReconcilerFacts.

(** What a slot holds before normalisation: the last score written to it,
    or the 0.0 of line 177. *)
Definition slot (e : Emotion) (result : list Item) : Q :=
  match last_score e result with
  | Some s => s
  | None => 0
  end.

(** The sum of the seven slots, taken in canonical order. *)
Definition slot_total (result : list Item) : Q :=
  Py.py_sum (map (fun e => slot e result) EMOTION_CONFIG_keys).

(** [d[e]], 0 for a missing key. *)
Definition score (e : Emotion) (d : Dict) : Q :=
  match PyDict.get e d with
  | Some v => v
  | None => 0
  end.

(** The slots each entry is written to, in the order of the entries. *)
Definition mapped_slots (result : list Item) : list Emotion :=
  flat_map
    (fun item =>
       match map_label (fst item) with
       | Some e => [e]
       | None => []
       end)
    result.

Lemma get_pre_normalize (e : Emotion) (result : list Item) :
  PyDict.get e (pre_normalize result) = Some (slot e result).
Proof.
  unfold pre_normalize, fill_missing, slot.
  rewrite get_fill by apply PyFacts.all_emotions.
  now rewrite get_collect.
Qed.

Lemma NoDup_keys_pre_normalize (result : list Item) :
  NoDup (PyDict.keys (pre_normalize result)).
Proof.
  unfold pre_normalize, fill_missing, collect.
  apply (fold_left_inv _ (fun d => NoDup (PyDict.keys d))).
  - intros d e _ Hd. destruct (PyDict.mem e d); trivial.
    now apply PyFacts.NoDup_keys_set.
  - apply (fold_left_inv _ (fun d => NoDup (PyDict.keys d))); [|constructor].
    intros d item _ Hd. unfold step.
    destruct (map_label (fst item)); trivial.
    now apply PyFacts.NoDup_keys_set.
Qed.

Lemma keys_pre_normalize_all (result : list Item) :
  Permutation (PyDict.keys (pre_normalize result)) EMOTION_CONFIG_keys.
Proof.
  apply NoDup_Permutation.
  - apply NoDup_keys_pre_normalize.
  - apply PyFacts.NoDup_EMOTION_CONFIG_keys.
  - intro e. split; intros _.
    + apply PyFacts.all_emotions.
    + apply fill_keys. right. apply PyFacts.all_emotions.
Qed.

Lemma py_sum_perm (l l' : list Q) :
  Permutation l l' -> Py.py_sum l == Py.py_sum l'.
Proof.
  induction 1 as [|x l l' _ IH|x y l|l l' l'' _ IH1 _ IH2].
  - reflexivity.
  - now rewrite !PyFacts.py_sum_cons, IH.
  - rewrite !PyFacts.py_sum_cons. ring.
  - now rewrite IH1.
Qed.

Lemma py_sum_map_Qeq {A : Type} (f g : A -> Q) (l : list A) :
  (forall a, f a == g a) -> Py.py_sum (map f l) == Py.py_sum (map g l).
Proof.
  intro H. induction l as [|a l IH]; [reflexivity|].
  simpl map. now rewrite !PyFacts.py_sum_cons, IH, H.
Qed.

(** In a dict without repeated keys the values are the scores of the keys. *)
Lemma values_by_keys (d : Dict) :
  NoDup (PyDict.keys d) ->
  PyDict.values d = map (fun k => score k d) (PyDict.keys d).
Proof.
  induction d as [|[k v] d IH]; intro Hnd; simpl; trivial.
  inversion Hnd as [|k' ks Hnot Hnd']; subst.
  unfold score at 1. simpl. destruct (Emotion_eq_dec k k); [|congruence].
  f_equal. rewrite IH by trivial. apply map_ext_in. intros k' Hk'.
  unfold score. simpl.
  destruct (Emotion_eq_dec k' k) as [->|]; [contradiction | reflexivity].
Qed.

(** The total of line 180 is the sum of the seven slots. *)
Lemma total_by_slots (result : list Item) :
  Py.py_sum (PyDict.values (pre_normalize result)) == slot_total result.
Proof.
  rewrite values_by_keys by apply NoDup_keys_pre_normalize.
  unfold slot_total.
  rewrite (py_sum_perm _ _
             (Permutation_map (fun k => score k (pre_normalize result))
                (keys_pre_normalize_all result))).
  apply py_sum_map_Qeq. intro e. unfold score.
  now rewrite get_pre_normalize.
Qed.

Lemma get_map_values (f : Q -> Q) (e : Emotion) (d : Dict) :
  PyDict.get e (map (fun kv => (fst kv, f (snd kv))) d)
  = option_map f (PyDict.get e d).
Proof.
  induction d as [|[k v] d IH]; simpl; trivial.
  now destruct (Emotion_eq_dec e k).
Qed.

(** The value the returned dict holds for a slot. *)
Lemma get_reconcile (e : Emotion) (result : list Item) :
  PyDict.get e (reconcile result)
  = Some (if Py.Qltb 0 (Py.py_sum (PyDict.values (pre_normalize result)))
          then slot e result
               / Py.py_sum (PyDict.values (pre_normalize result))
          else slot e result).
Proof.
  unfold reconcile, normalize.
  destruct (Py.Qltb 0 (Py.py_sum (PyDict.values (pre_normalize result)))).
  - rewrite (get_map_values
               (fun v => v / Py.py_sum (PyDict.values (pre_normalize result)))).
    now rewrite get_pre_normalize.
  - apply get_pre_normalize.
Qed.

End SlotFacts.

Module SlotSpec.

Import Reconciler ReconcilerFacts SlotFacts.

Definition maps_to (e : Emotion) (item : Item) : bool :=
  match map_label (fst item) with
  | Some e' => if Emotion_eq_dec e e' then true else false
  | None => false
  end.

Lemma py_sum_app (l1 l2 : list Q) :
  Py.py_sum (l1 ++ l2) == Py.py_sum l1 + Py.py_sum l2.
Proof.
  induction l1 as [|x l1 IH]; simpl.
  - unfold Py.py_sum at 2; simpl. ring.
  - rewrite !PyFacts.py_sum_cons, IH. ring.
Qed.

Lemma last_score_snoc (e : Emotion) (l : list Item) (item : Item) :
  last_score e (l ++ [item])
  = if maps_to e item then Some (snd item) else last_score e l.
Proof.
  unfold last_score, maps_to. rewrite fold_left_app. simpl.
  destruct (map_label (fst item)) as [e'|]; trivial.
  now destruct (Emotion_eq_dec e e').
Qed.

Lemma summed_score_filter (e : Emotion) (l : list Item) :
  summed_score e l = Py.py_sum (map snd (filter (maps_to e) l)).
Proof. reflexivity. Qed.

Lemma summed_score_snoc (e : Emotion) (l : list Item) (item : Item) :
  summed_score e (l ++ [item])
  == summed_score e l + (if maps_to e item then snd item else 0).
Proof.
  rewrite !summed_score_filter.
  rewrite filter_app, map_app, py_sum_app.
  change (filter (maps_to e) [item])
    with (if maps_to e item then [item] else []).
  destruct (maps_to e item); cbn [map snd].
  - rewrite PyFacts.py_sum_cons. change (Py.py_sum []) with 0.
    now rewrite Qplus_0_r.
  - reflexivity.
Qed.

Lemma mapped_slots_snoc (l : list Item) (item : Item) :
  mapped_slots (l ++ [item])
  = mapped_slots l
    ++ match map_label (fst item) with Some e => [e] | None => [] end.
Proof.
  unfold mapped_slots. rewrite flat_map_app. simpl. now rewrite app_nil_r.
Qed.

Lemma summed_score_unmapped (e : Emotion) (l : list Item) :
  ~ In e (mapped_slots l) -> summed_score e l == 0.
Proof.
  intro Hnot. rewrite summed_score_filter.
  assert (H : filter (maps_to e) l = []).
  { induction l as [|item l IH]; simpl; trivial.
    unfold mapped_slots in Hnot. simpl in Hnot. rewrite in_app_iff in Hnot.
    unfold maps_to at 1.
    destruct (map_label (fst item)) as [e'|].
    - destruct (Emotion_eq_dec e e') as [->|].
      + exfalso. apply Hnot. left. now left.
      + apply IH. tauto.
    - apply IH. tauto. }
  rewrite H. reflexivity.
Qed.

Lemma slot_is_sum (result : list Item) (e : Emotion) :
  NoDup (mapped_slots result) -> slot e result == summed_score e result.
Proof.
  intro Hnd. unfold slot.
  induction result as [|item l IH] using rev_ind.
  - reflexivity.
  - rewrite mapped_slots_snoc in Hnd. apply NoDup_app_remove_r in Hnd as Hl.
    specialize (IH Hl).
    rewrite last_score_snoc, summed_score_snoc.
    unfold maps_to in *.
    destruct (map_label (fst item)) as [e'|]; [|rewrite IH; ring].
    destruct (Emotion_eq_dec e e') as [<-|]; [|rewrite IH; ring].
    rewrite summed_score_unmapped; [ring|].
    intro Hin. apply NoDup_remove_2 in Hnd. apply Hnd.
    rewrite app_nil_r. exact Hin.
Qed.

(** When no two entries are written to the same slot, what a slot holds
    before normalisation is the sum of the scores written to it: on such
    results the overwriting of lines 159-172 and a summing rule agree. *)
Theorem distinct_slots_hold_sums (result : list Item) :
  NoDup (mapped_slots result) ->
  forall e,
    exists v,
      PyDict.get e (pre_normalize result) = Some v
      /\ v == summed_score e result.
Proof.
  intros Hnd e. exists (slot e result).
  split; [apply get_pre_normalize | now apply slot_is_sum].
Qed.

Lemma distinct_slots_hold_sums_witness :
  exists v,
    PyDict.get Sadness
      (pre_normalize [("joy"%string, 0.6); ("sad"%string, 0.2)]) = Some v
    /\ v == summed_score Sadness [("joy"%string, 0.6); ("sad"%string, 0.2)].
Proof.
  apply (distinct_slots_hold_sums
           [("joy"%string, 0.6); ("sad"%string, 0.2)]).
  repeat constructor; simpl; intuition discriminate.
Defined.

Lemma last_score_source (e : Emotion) (l : list Item) :
  match last_score e l with
  | Some s =>
      exists item,
        In item l /\ maps_to e item = true /\ snd item = s
  | None => forall item, In item l -> maps_to e item = false
  end.
Proof.
  induction l as [|item l IH] using rev_ind.
  - intros item [].
  - rewrite last_score_snoc. destruct (maps_to e item) eqn:M.
    + exists item. rewrite in_app_iff. simpl. tauto.
    + destruct (last_score e l) as [s|].
      * destruct IH as (it & Hin & Hm & Hs). exists it.
        rewrite in_app_iff. tauto.
      * intros it Hin. apply in_app_iff in Hin.
        destruct Hin as [Hin|[<-|[]]]; auto.
Qed.

Lemma maps_to_mapped (e : Emotion) (item : Item) (l : list Item) :
  In item l -> maps_to e item = true -> In e (mapped_slots l).
Proof.
  intros Hin Hm. unfold mapped_slots. apply in_flat_map. exists item.
  split; trivial. unfold maps_to in Hm.
  destruct (map_label (fst item)) as [e'|]; [|discriminate].
  destruct (Emotion_eq_dec e e') as [->|]; [now left | discriminate].
Qed.

(** With no slot written twice, a slot has one source at most. *)
Lemma one_source (e : Emotion) (l : list Item) :
  NoDup (mapped_slots l) ->
  forall i1 i2,
    In i1 l -> In i2 l ->
    maps_to e i1 = true -> maps_to e i2 = true -> i1 = i2.
Proof.
  induction l as [|a l IH]; intros Hnd i1 i2 H1 H2 M1 M2; [destruct H1|].
  assert (Hhead : maps_to e a = true -> ~ In e (mapped_slots l)).
  { intro Ma. unfold mapped_slots in Hnd. cbn [flat_map] in Hnd.
    unfold maps_to in Ma. destruct (map_label (fst a)) as [e'|];
      [|discriminate].
    destruct (Emotion_eq_dec e e') as [->|]; [|discriminate].
    now inversion Hnd. }
  assert (Htail : NoDup (mapped_slots l)).
  { unfold mapped_slots in Hnd. cbn [flat_map] in Hnd.
    now apply NoDup_app_remove_l in Hnd. }
  destruct H1 as [<-|H1], H2 as [<-|H2]; trivial.
  - exfalso. apply (Hhead M1). now apply (maps_to_mapped e i2).
  - exfalso. apply (Hhead M2). now apply (maps_to_mapped e i1).
  - now apply IH.
Qed.

(** When no two entries are written to the same slot, the order in which
    the classifier lists its entries changes nothing in what the slots
    hold before normalisation: slot by slot the dict of line 177 is the
    same (only the order of its keys depends on the classifier's
    order). *)
Theorem slots_independent_of_order (result result' : list Item) :
  Permutation result result' ->
  NoDup (mapped_slots result) ->
  forall e,
    PyDict.get e (pre_normalize result)
    = PyDict.get e (pre_normalize result').
Proof.
  intros Hperm Hnd e. rewrite !get_pre_normalize. f_equal. unfold slot.
  pose proof (last_score_source e result) as H.
  pose proof (last_score_source e result') as H'.
  destruct (last_score e result) as [s|], (last_score e result') as [s'|];
    trivial.
  - destruct H as (i & Hi & Mi & <-). destruct H' as (i' & Hi' & Mi' & <-).
    apply (Permutation_in _ (Permutation_sym Hperm)) in Hi'.
    now rewrite (one_source e result Hnd i i' Hi Hi' Mi Mi').
  - destruct H as (i & Hi & Mi & _).
    apply (Permutation_in _ Hperm) in Hi. rewrite (H' i Hi) in Mi.
    discriminate.
  - destruct H' as (i' & Hi' & Mi' & _).
    apply (Permutation_in _ (Permutation_sym Hperm)) in Hi'.
    rewrite (H i' Hi') in Mi'. discriminate.
Qed.

Lemma slots_independent_of_order_witness :
  PyDict.get Sadness
    (pre_normalize [("joy"%string, 0.6); ("sad"%string, 0.2)])
  = PyDict.get Sadness
      (pre_normalize [("sad"%string, 0.2); ("joy"%string, 0.6)]).
Proof.
  apply (slots_independent_of_order
           [("joy"%string, 0.6); ("sad"%string, 0.2)]
           [("sad"%string, 0.2); ("joy"%string, 0.6)]).
  - apply perm_swap.
  - repeat constructor; simpl; intuition discriminate.
Defined.

End SlotSpec.

(** ** What the analysis step stores *)

Module StoreMore.

Import Store StoreFacts.

(** With a token and a classifier call that returned, the step is the
    call of [save_recording] on the reconciled dict. *)
Lemma analyze_saves (result : list Reconciler.Item) (path : string)
    (intensity : Q) (now : string) (st : SessionState) :
  hf_token st <> ""%string ->
  analyze (Py.Ok result) path intensity now st
  = save_recording (Reconciler.reconcile result) path intensity now st.
Proof.
  intro Htok. unfold analyze, get_emotion_from_huggingface.
  destruct (String.eqb (hf_token st) "") eqn:E.
  - apply String.eqb_eq in E. contradiction.
  - now rewrite reconcile_truthy.
Qed.

Lemma reconcile_cons (result : list Reconciler.Item) :
  exists kv d, Reconciler.reconcile result = kv :: d.
Proof.
  pose proof (reconcile_truthy result) as H.
  destruct (Reconciler.reconcile result) as [|kv d]; [discriminate|].
  now exists kv, d.
Qed.

(** With a token configured, every classifier call that returns leads to
    a stored recording, whatever it returned: the gate [if emotions:]
    never closes, because the dict always has its seven keys.  The
    recording carries the reconciled dict, the time, the selected language
    and the intensity and path given.  When no label of the result matches
    (an empty result included), what is stored is Anger with confidence
    0. *)
Theorem analyze_always_stores (result : list Reconciler.Item)
    (path : string) (intensity : Q) (now : string) (st : SessionState) :
  hf_token st <> ""%string ->
  exists r,
    analyze (Py.Ok result) path intensity now st
    = Py.Ok (with_recordings (recordings st ++ [r]) st)
    /\ emotions r = Reconciler.reconcile result
    /\ timestamp r = now
    /\ language r = selected_language st
    /\ Store.intensity r = intensity
    /\ audio_path r = path
    /\ ((forall item, In item result ->
                      Reconciler.map_label (fst item) = None) ->
        dominant_emotion r = Anger /\ confidence r = 0).
Proof.
  intro Htok. rewrite analyze_saves by trivial.
  destruct (reconcile_cons result) as (kv & d & E). rewrite E.
  rewrite save_recording_nonempty. eexists. split; [reflexivity|].
  simpl. repeat split; trivial.
  - unfold Reconciler.reconcile, Reconciler.pre_normalize in E.
    rewrite (ReconcilerFacts.collect_unmatched _ H) in E.
    vm_compute in E. injection E as <- <-. reflexivity.
  - unfold Reconciler.reconcile, Reconciler.pre_normalize in E.
    rewrite (ReconcilerFacts.collect_unmatched _ H) in E.
    vm_compute in E. injection E as <- <-. reflexivity.
Qed.

Lemma analyze_always_stores_witness :
  exists r,
    analyze (Py.Ok []) "/tmp/a.wav" 0.5 "2024-01-01T00:00:00"
      StoreSpec.session0
    = Py.Ok (with_recordings (recordings StoreSpec.session0 ++ [r])
               StoreSpec.session0)
    /\ emotions r = Reconciler.reconcile []
    /\ timestamp r = "2024-01-01T00:00:00"%string
    /\ language r = selected_language StoreSpec.session0
    /\ Store.intensity r = 0.5
    /\ audio_path r = "/tmp/a.wav"%string
    /\ ((forall item : Reconciler.Item, In item [] ->
                      Reconciler.map_label (fst item) = None) ->
        dominant_emotion r = Anger /\ confidence r = 0).
Proof.
  apply (analyze_always_stores [] "/tmp/a.wav" 0.5 "2024-01-01T00:00:00"
           StoreSpec.session0).
  discriminate.
Defined.

(** [max(d, key=d.get)] and [max(d.values())] pick the same entry. *)
Lemma max_pair_in (d : Dict) :
  forall cur,
    In (PyDict.max_key_from cur d, Py.max_from (snd cur) (map snd d))
       (cur :: d).
Proof.
  induction d as [|kv d IH]; intro cur; simpl.
  - left. now destruct cur.
  - destruct (Py.Qltb (snd cur) (snd kv)).
    + right. apply (IH kv).
    + destruct (IH cur) as [H|H]; [now left | right; now right].
Qed.

Lemma get_of_in (k : Emotion) (v : Q) (d : Dict) :
  NoDup (PyDict.keys d) -> In (k, v) d -> PyDict.get k d = Some v.
Proof.
  induction d as [|[k' v'] d IH]; intros Hnd Hin; [destruct Hin|].
  simpl in *. inversion Hnd as [|? ? Hnot Hnd']; subst.
  destruct Hin as [Heq|Hin].
  - injection Heq as -> ->. now destruct (Emotion_eq_dec k k).
  - destruct (Emotion_eq_dec k k') as [->|]; [|now apply IH].
    exfalso. apply Hnot. apply in_map_iff. now exists (k', v).
Qed.

Lemma NoDup_keys_reconcile (result : list Reconciler.Item) :
  NoDup (PyDict.keys (Reconciler.reconcile result)).
Proof.
  unfold Reconciler.reconcile. rewrite ReconcilerFacts.keys_normalize.
  apply SlotFacts.NoDup_keys_pre_normalize.
Qed.

(** The confidence stored with a recording is the score its own vector
    holds for its dominant emotion: the percentage shown beside the
    emotion (line 499) and the stored confidence (line 320) are the same
    number. *)
Theorem confidence_is_dominant_score (result : list Reconciler.Item)
    (path : string) (intensity : Q) (now : string) (st : SessionState) :
  hf_token st <> ""%string ->
  exists r,
    analyze (Py.Ok result) path intensity now st
    = Py.Ok (with_recordings (recordings st ++ [r]) st)
    /\ PyDict.get (dominant_emotion r) (emotions r) = Some (confidence r).
Proof.
  intro Htok. rewrite analyze_saves by trivial.
  pose proof (NoDup_keys_reconcile result) as Hnd.
  destruct (reconcile_cons result) as (kv & d & E). rewrite E in *.
  rewrite save_recording_nonempty. eexists. split; [reflexivity|].
  cbn [dominant_emotion emotions confidence].
  apply get_of_in; trivial. apply max_pair_in.
Qed.

Lemma confidence_is_dominant_score_witness :
  exists r,
    analyze (Py.Ok StoreSpec.disgust_first) "/tmp/a.wav" 0.5
      "2024-01-01T00:00:00" StoreSpec.session0
    = Py.Ok (with_recordings (recordings StoreSpec.session0 ++ [r])
               StoreSpec.session0)
    /\ PyDict.get (dominant_emotion r) (emotions r) = Some (confidence r).
Proof.
  apply (confidence_is_dominant_score StoreSpec.disgust_first "/tmp/a.wav"
           0.5 "2024-01-01T00:00:00" StoreSpec.session0).
  discriminate.
Defined.

End StoreMore.

(** ** Confidence: its first value and the buttons *)

Module ConfidenceMore.

Import Store StoreFacts.










(** The confidence the statement of a button leaves on a recording whose
    vector has maximum [m]. *)
Definition pressed_confidence (button : Button) (m : Q) : Q :=
  match button with
  | IncreaseButton => m * (11 # 10)
  | DecreaseButton => m * (9 # 10)
  | ResetButton => m
  | NoButton => m
  end.

Lemma run_main_stores (button : Button) (inp : RunInput)
    (result : list Reconciler.Item) (st : SessionState) :
  hf_token st <> ""%string ->
  run_api inp = Py.Ok result ->
  exists r m,
    run_main button inp st
    = Py.Ok (with_recordings (recordings st ++ [r]) st)
    /\ emotions r = Reconciler.reconcile result
    /\ Py.py_max (PyDict.values (emotions r)) = Py.Ok m
    /\ confidence r = pressed_confidence button m.
Proof.
  intros Htok Hapi. unfold run_main, get_emotion_from_huggingface.
  rewrite Hapi. destruct (String.eqb (hf_token st) "") eqn:E;
    [apply String.eqb_eq in E; contradiction|].
  rewrite reconcile_truthy.
  destruct (StoreMore.reconcile_cons result) as (kv & d & ->).
  rewrite save_recording_nonempty. cbn [Py.bind recordings with_recordings].
  unfold increase_confidence, decrease_confidence.
  destruct button; cbn [Py.bind];
    rewrite ?adjust_confidence_snoc,
      ?(reset_confidence_snoc (kv :: d)
          (Py.max_from (snd kv) (map snd d)) _ _ eq_refl);
    cbn [Py.bind]; do 2 eexists; (split; [reflexivity|]);
    cbn [emotions confidence set_confidence pressed_confidence];
    repeat split.
Qed.

(** Presses do not compose on one recording.  With a token and a
    classifier that answers, every press appends two recordings and
    changes none: the first takes the pressed button's effect on its own
    fresh maximum (times 1.1, times 0.9, or the maximum itself), and the
    second, appended by the rerun, starts at its maximum again.  So after
    Increase then Decrease no recording holds 0.99 of its maximum, and the
    last recording is always a fresh one. *)
Theorem presses_do_not_compose (button : Button) (inp rerun : RunInput)
    (result result' : list Reconciler.Item) (st : SessionState) :
  hf_token st <> ""%string ->
  run_api inp = Py.Ok result ->
  run_api rerun = Py.Ok result' ->
  exists r1 r2 m1,
    press button inp rerun st
    = Py.Ok (with_recordings (recordings st ++ [r1; r2]) st)
    /\ emotions r1 = Reconciler.reconcile result
    /\ Py.py_max (PyDict.values (emotions r1)) = Py.Ok m1
    /\ confidence r1 = pressed_confidence button m1
    /\ emotions r2 = Reconciler.reconcile result'
    /\ Py.py_max (PyDict.values (emotions r2)) = Py.Ok (confidence r2).
Proof.
  intros Htok Hapi Hapi'. unfold press.
  destruct (run_main_stores button inp result st Htok Hapi)
    as (r1 & m1 & E1 & He1 & Hm1 & Hc1).
  rewrite E1. cbn [Py.bind].
  destruct (run_main_stores NoButton rerun result'
              (with_recordings (recordings st ++ [r1]) st) Htok Hapi')
    as (r2 & m2 & E2 & He2 & Hm2 & Hc2).
  rewrite E2. exists r1, r2, m1.
  cbn [recordings with_recordings]. rewrite <- app_assoc.
  split; [reflexivity|]. cbn [pressed_confidence] in Hc2.
  rewrite Hc2. tauto.
Qed.

Lemma presses_do_not_compose_witness :
  exists r1 r2 m1,
    press DecreaseButton StoreSpec.sad_input StoreSpec.sad_input
      StoreSpec.session0
    = Py.Ok
        (with_recordings (recordings StoreSpec.session0 ++ [r1; r2])
           StoreSpec.session0)
    /\ emotions r1
       = Reconciler.reconcile [("sad"%string, 0.8); ("joy"%string, 0.2)]
    /\ Py.py_max (PyDict.values (emotions r1)) = Py.Ok m1
    /\ confidence r1 = pressed_confidence DecreaseButton m1
    /\ emotions r2
       = Reconciler.reconcile [("sad"%string, 0.8); ("joy"%string, 0.2)]
    /\ Py.py_max (PyDict.values (emotions r2)) = Py.Ok (confidence r2).
Proof.
  apply (presses_do_not_compose DecreaseButton StoreSpec.sad_input
           StoreSpec.sad_input
           [("sad"%string, 0.8); ("joy"%string, 0.2)]
           [("sad"%string, 0.8); ("joy"%string, 0.2)] StoreSpec.session0).
  - discriminate.
  - reflexivity.
  - reflexivity.
Defined.

(** One field edit after another, the first with a key that is not
    empty. *)
Definition enter_keys (key : string) (later : list string)
    (st : SessionState) : SessionState :=
  fold_left (fun s k => update_token k s) later (update_token key st).

(** Once a key has been entered, nothing typed into the field later, an
    empty field included, removes the token; and the field never touches
    the recordings or the language. *)
Theorem token_is_never_cleared (key : string) (later : list string)
    (st : SessionState) :
  key <> ""%string ->
  hf_token (enter_keys key later st) <> ""%string
  /\ recordings (enter_keys key later st) = recordings st
  /\ selected_language (enter_keys key later st) = selected_language st.
Proof.
  intro Hkey. unfold enter_keys.
  assert (H0 : hf_token (update_token key st) <> ""%string
               /\ recordings (update_token key st) = recordings st
               /\ selected_language (update_token key st)
                  = selected_language st).
  { unfold update_token. destruct (String.eqb key "") eqn:E.
    - apply String.eqb_eq in E. contradiction.
    - simpl. tauto. }
  revert H0. generalize (update_token key st) as s.
  induction later as [|k later IH]; intros s Hs; simpl; trivial.
  apply IH. unfold update_token. destruct (String.eqb k "") eqn:E; trivial.
  apply String.eqb_neq in E. simpl. tauto.
Qed.

Lemma token_is_never_cleared_witness :
  hf_token (enter_keys "hf_abc" [""%string; "hf_xyz"%string; ""%string]
              (mkSession [] "English" "")) <> ""%string
  /\ recordings (enter_keys "hf_abc" [""%string; "hf_xyz"%string; ""%string]
                   (mkSession [] "English" "")) = []
  /\ selected_language
       (enter_keys "hf_abc" [""%string; "hf_xyz"%string; ""%string]
          (mkSession [] "English" "")) = "English"%string.
Proof.
  apply (token_is_never_cleared "hf_abc"
           [""%string; "hf_xyz"%string; ""%string]
           (mkSession [] "English" "")).
  discriminate.
Defined.

(** The comparison tab starts with the two most recent recordings,
    numbered as the last but one and the last, and reading them never
    raises; with fewer than two recordings nothing is selected. *)
Theorem comparison_starts_with_last_two :
  (forall (before : list Recording) (r1 r2 : Recording),
      exists indices,
        default_indices (before ++ [r1; r2]) = Some indices
        /\ comparison_data (before ++ [r1; r2]) indices
           = Py.Ok
               [(S (List.length before), dominant_emotion r1, emotions r1);
                (S (S (List.length before)), dominant_emotion r2,
                 emotions r2)])
  /\ (forall recs : list Recording,
         (List.length recs < 2)%nat <-> default_indices recs = None).
Proof.
  split.
  - intros before r1 r2. unfold default_indices.
    rewrite length_app. cbn [List.length].
    destruct (List.length before + 2 <? 2)%nat eqn:E;
      [apply Nat.ltb_lt in E; lia|].
    eexists. split; [reflexivity|].
    replace (List.length before + 2 - 2)%nat with (List.length before) by lia.
    replace (List.length before + 2 - 1)%nat
      with (S (List.length before)) by lia.
    cbn [comparison_data]. unfold get_recording.
    rewrite (nth_error_app2 before [r1; r2] (n := List.length before))
      by lia.
    rewrite (nth_error_app2 before [r1; r2] (n := S (List.length before)))
      by lia.
    rewrite Nat.sub_diag.
    replace (S (List.length before) - List.length before)%nat with 1%nat
      by lia.
    cbn [nth_error Py.bind].
    now rewrite !Nat.add_1_r.
  - intro recs. unfold default_indices.
    destruct (List.length recs <? 2)%nat eqn:E.
    + apply Nat.ltb_lt in E. tauto.
    + apply Nat.ltb_ge in E. split; [lia | discriminate].
Qed.

End ConfidenceMore.

(** ** The metrics of the analytics tab *)

Module AnalyticsMore.

Import Analytics AnalyticsFacts.



Lemma length_pos (A : Type) (l : list A) :
  l <> [] -> 0 < inject_Z (Z.of_nat (List.length l)).
Proof.
  intro Hne. destruct l as [|a l]; [congruence|].
  change 0 with (inject_Z 0). rewrite <- Zlt_Qlt. cbn [List.length]. lia.
Qed.




End AnalyticsMore.

(** ** Writing feedback and reading it back *)

Module FeedbackMore.

Import Feedback.

Lemma skip_corrupted_clean (lines : list Line) :
  existsb is_corrupted lines = false ->
  List.length (skip_corrupted lines) = List.length lines.
Proof.
  induction lines as [|[e|text] lines IH]; simpl; intro H; trivial.
  - now rewrite IH.
  - discriminate.
Qed.

Lemma count_correct_le (data : list Entry) :
  (count_correct data <= List.length data)%nat.
Proof. unfold count_correct. apply filter_length_le. Qed.

Lemma sum_helpfulness_shift (zs : list Z) (a : Z) :
  fold_left Z.add zs a = (a + fold_left Z.add zs 0)%Z.
Proof.
  revert a. induction zs as [|z zs IH]; intro a; simpl; [lia|].
  rewrite (IH (a + z)%Z), (IH z). lia.
Qed.

Lemma sum_helpfulness_bounds (lo hi : Z) (data : list Entry) :
  Forall (fun e => (lo <= helpfulness e <= hi)%Z) data ->
  (lo * Z.of_nat (List.length data) <= sum_helpfulness data
   <= hi * Z.of_nat (List.length data))%Z.
Proof.
  unfold sum_helpfulness.
  induction 1 as [|e data He _ IH]; [simpl; lia|].
  cbn [map fold_left List.length]. rewrite sum_helpfulness_shift.
  rewrite Nat2Z.inj_succ. lia.
Qed.

(** What the statistics section does, by the state of the log: a file
    with no line raises [KeyError] (the frame has no column to read), a
    file with a corrupted line raises the decoding error, and a file of
    well-formed lines that is not empty gives statistics that count every
    line, with an accuracy between 0 and 100. *)
Theorem statistics_by_log_state (lines : list Line) :
  (lines = [] -> feedback_statistics lines = Py.Raise Py.KeyError)
  /\ (existsb is_corrupted lines = true ->
      feedback_statistics lines = Py.Raise Py.JSONDecodeError)
  /\ (lines <> [] ->
      existsb is_corrupted lines = false ->
      exists stats,
        feedback_statistics lines = Py.Ok stats
        /\ total_feedback stats = List.length lines
        /\ 0 <= accuracy stats
        /\ accuracy stats <= 100).
Proof.
  unfold feedback_statistics.
  rewrite FeedbackSpec.read_lines_all_or_nothing. cbn [app].
  split; [now intros ->|]. split; [now intros ->|].
  intros Hne Hclean. rewrite Hclean. cbn [Py.bind].
  pose proof (skip_corrupted_clean lines Hclean) as Hlen.
  destruct (skip_corrupted lines) as [|e data] eqn:E.
  - destruct lines; [congruence | discriminate].
  - unfold summarize. eexists. split; [reflexivity|].
    cbn [total_feedback accuracy]. split; [exact Hlen|].
    pose proof (AnalyticsMore.length_pos Entry (e :: data)) as Hn.
    specialize (Hn ltac:(discriminate)).
    pose proof (count_correct_le (e :: data)) as Hc.
    split.
    + apply Qmult_le_0_compat; [|discriminate].
      apply Qle_shift_div_l; trivial. rewrite Qmult_0_l.
      change 0 with (inject_Z 0). rewrite <- Zle_Qle. lia.
    + setoid_replace 100 with (1 * 100) at 2 by ring.
      apply Qmult_le_compat_r; [|discriminate].
      apply Qle_shift_div_r; trivial. rewrite Qmult_1_l.
      rewrite <- Zle_Qle. lia.
Qed.

Lemma statistics_by_log_state_witness :
  exists stats,
    feedback_statistics
      [Wellformed FeedbackSpec.entry_ok; Wellformed FeedbackSpec.entry_wrong]
    = Py.Ok stats
    /\ total_feedback stats = 2%nat
    /\ 0 <= accuracy stats
    /\ accuracy stats <= 100.
Proof.
  apply (proj2 (proj2 (statistics_by_log_state
           [Wellformed FeedbackSpec.entry_ok;
            Wellformed FeedbackSpec.entry_wrong]))).
  - discriminate.
  - reflexivity.
Defined.

Lemma summarize_average (data : list Entry) (stats : Stats) :
  summarize data = Py.Ok stats ->
  data <> []
  /\ avg_helpfulness stats
     = inject_Z (sum_helpfulness data)
       / inject_Z (Z.of_nat (List.length data)).
Proof.
  destruct data as [|e data]; [discriminate|].
  intro H. injection H as <-. split; [discriminate | reflexivity].
Qed.

(** With every rating between 1 and 5, as the slider gives them, the
    average helpfulness of a log that can be read lies between 1 and 5. *)
Theorem average_helpfulness_in_range (lines : list Line) (stats : Stats) :
  Forall (fun e => (1 <= helpfulness e <= 5)%Z) (skip_corrupted lines) ->
  feedback_statistics lines = Py.Ok stats ->
  1 <= avg_helpfulness stats /\ avg_helpfulness stats <= 5.
Proof.
  intros Hrange. unfold feedback_statistics.
  rewrite FeedbackSpec.read_lines_all_or_nothing. cbn [app].
  destruct (existsb is_corrupted lines); [discriminate|]. cbn [Py.bind].
  intro H. apply summarize_average in H. destruct H as [Hne ->].
  pose proof (AnalyticsMore.length_pos Entry _ Hne) as Hn.
  pose proof (sum_helpfulness_bounds 1 5 _ Hrange) as [Hlo Hhi].
  revert Hn Hlo Hhi.
  generalize (Z.of_nat (List.length (skip_corrupted lines))) as n.
  generalize (sum_helpfulness (skip_corrupted lines)) as total.
  intros total n Hn Hlo Hhi.
  split.
  - apply Qle_shift_div_l; trivial. rewrite Qmult_1_l.
    rewrite <- Zle_Qle. lia.
  - apply Qle_shift_div_r; trivial.
    change 5 with (inject_Z 5). rewrite <- inject_Z_mult, <- Zle_Qle. lia.
Qed.

Lemma average_helpfulness_in_range_witness :
  1 <= avg_helpfulness (mkStats (inject_Z 1 / inject_Z 2 * 100)
                          (inject_Z 6 / inject_Z 2) 2)
  /\ avg_helpfulness (mkStats (inject_Z 1 / inject_Z 2 * 100)
                        (inject_Z 6 / inject_Z 2) 2) <= 5.
Proof.
  apply (average_helpfulness_in_range
           [Wellformed FeedbackSpec.entry_ok;
            Wellformed FeedbackSpec.entry_wrong]).
  - repeat constructor; simpl; lia.
  - reflexivity.
Defined.

End FeedbackMore.

(** ** Submitting feedback *)

Module SubmitMore.

Import Feedback.

(** The lines of the log, none when the file is absent. *)
Definition log_lines (file : File) : list Line :=
  match file with
  | Some lines => lines
  | None => []
  end.

Lemma existsb_snoc_wellformed (lines : list Line) (e : Entry) :
  existsb is_corrupted (lines ++ [Wellformed e])
  = existsb is_corrupted lines.
Proof. rewrite existsb_app. simpl. now rewrite !orb_false_r. Qed.

Lemma skip_corrupted_snoc (lines : list Line) (e : Entry) :
  skip_corrupted (lines ++ [Wellformed e]) = skip_corrupted lines ++ [e].
Proof.
  induction lines as [|[e'|text] lines IH]; simpl; trivial. now rewrite IH.
Qed.

(** A submission for a recording of the store appends one line to the
    log, creating it if needed, with the recording's number and dominant
    emotion as the prediction.  On a log without corrupted lines the
    statistics shown right after are computed and count one entry more; on
    a log with a corrupted line they still raise: appending repairs
    nothing. *)
Theorem submitted_feedback_is_counted
    (recs : list Store.Recording) (idx : nat) (r : Store.Recording)
    (correct : Emotion) (answer_yes : bool) (text : string) (rating : Z)
    (now : string) (file : File) :
  nth_error recs idx = Some r ->
  exists entry,
    submit_feedback recs idx correct answer_yes text rating now file
    = Py.Ok (Some (log_lines file ++ [Wellformed entry]))
    /\ recording_idx entry = idx
    /\ predicted_emotion entry = Store.dominant_emotion r
    /\ (existsb is_corrupted (log_lines file) = false ->
        exists stats,
          feedback_section (Some (log_lines file ++ [Wellformed entry]))
          = Py.Ok (Some stats)
          /\ total_feedback stats = S (List.length (log_lines file)))
    /\ (existsb is_corrupted (log_lines file) = true ->
        feedback_section (Some (log_lines file ++ [Wellformed entry]))
        = Py.Raise Py.JSONDecodeError).
Proof.
  intro Hidx. unfold submit_feedback, Store.get_recording.
  rewrite Hidx. cbn [Py.bind]. fold (log_lines file).
  eexists. split; [reflexivity|]. cbn [recording_idx predicted_emotion].
  split; [reflexivity|]. split; [reflexivity|].
  unfold feedback_section, feedback_statistics.
  rewrite FeedbackSpec.read_lines_all_or_nothing, existsb_snoc_wellformed.
  cbn [app]. split; intro Hc; rewrite Hc; [|reflexivity].
  cbn [Py.bind]. rewrite skip_corrupted_snoc.
  pose proof (FeedbackMore.skip_corrupted_clean _ Hc) as Hlen.
  destruct (skip_corrupted (log_lines file) ++ [_]) as [|e data] eqn:E.
  - destruct (skip_corrupted (log_lines file)); discriminate.
  - unfold summarize. cbn [Py.bind]. eexists. split; [reflexivity|].
    cbn [total_feedback]. rewrite <- E, length_app, Hlen. simpl. lia.
Qed.

Lemma submitted_feedback_is_counted_witness :
  exists entry,
    submit_feedback [AnalyticsSpec.rec_of Fear] 0 Sadness false "" 2
      "2024-01-01T00:05:00" None
    = Py.Ok (Some (log_lines None ++ [Wellformed entry]))
    /\ recording_idx entry = 0%nat
    /\ predicted_emotion entry
       = Store.dominant_emotion (AnalyticsSpec.rec_of Fear)
    /\ (existsb is_corrupted (log_lines None) = false ->
        exists stats,
          feedback_section (Some (log_lines None ++ [Wellformed entry]))
          = Py.Ok (Some stats)
          /\ total_feedback stats = S (List.length (log_lines None)))
    /\ (existsb is_corrupted (log_lines None) = true ->
        feedback_section (Some (log_lines None ++ [Wellformed entry]))
        = Py.Raise Py.JSONDecodeError).
Proof.
  apply (submitted_feedback_is_counted [AnalyticsSpec.rec_of Fear] 0
           (AnalyticsSpec.rec_of Fear) Sadness false "" 2
           "2024-01-01T00:05:00" None).
  reflexivity.
Defined.

(** [list.index] gives a position at which the list holds the element,
    and raises exactly when the element is not in the list; on the
    canonical keys it gives the rank of the emotion, so the form's
    "correct emotion" field always starts on the predicted emotion and
    building it never raises. *)
Theorem index_then_lookup :
  (forall (l : list Emotion) (e : Emotion) (i : nat),
      list_index e l = Py.Ok i -> nth_error l i = Some e)
  /\ (forall (l : list Emotion) (e : Emotion),
         ~ In e l <-> list_index e l = Py.Raise Py.ValueError)
  /\ (forall e : Emotion,
         list_index e EMOTION_CONFIG_keys = Py.Ok (rank e)).
Proof.
  split; [|split].
  - induction l as [|x l IH]; intros e i; simpl; [discriminate|].
    destruct (Emotion_eq_dec e x) as [->|Hne].
    + intro H. injection H as <-. reflexivity.
    + destruct (list_index e l) as [j|exn] eqn:E; simpl; [|discriminate].
      intro H. injection H as <-. simpl. now apply IH.
  - induction l as [|x l IH]; intro e; simpl.
    + tauto.
    + destruct (Emotion_eq_dec e x) as [->|Hne].
      * split; [intro H; exfalso; apply H; now left | discriminate].
      * specialize (IH e). destruct (list_index e l) as [j|exn]; simpl.
        -- split; [|discriminate]. intro H. exfalso.
           assert (Hn : ~ In e l) by (intro; apply H; now right).
           apply IH in Hn. discriminate.
        -- split.
           ++ intro H. assert (Hn : ~ In e l) by (intro; apply H; now right).
              apply IH in Hn. exact Hn.
           ++ intros H [Hx|Hin]; [congruence|]. now apply IH in H.
  - intro e. destruct e; reflexivity.
Qed.

End SubmitMore.

(** ** The outcomes of the preprocessing *)

Module PreprocessMore.

Import Preprocess.

(** [preprocess_audio] gives up, warns and hands back the caller's audio
    when the file cannot be loaded, when nothing is left after trimming,
    and when the write raises (as for an upload whose extension soundfile
    cannot write); otherwise it writes a buffer with as many samples as
    the trimming kept.  The normalisation itself raises nothing, whatever
    the samples are.  When the write always goes through, the function is
    the one without the write. *)
Theorem preprocess_falls_back_or_writes
    (trim : Buffer -> Buffer) (sf_write : Buffer -> Py.res unit) :
  (forall e,
      preprocess_audio_writing trim sf_write (Py.Raise e) = FellBack e)
  /\ (forall y,
         trim y = [] ->
         preprocess_audio_writing trim sf_write (Py.Ok y)
         = FellBack Py.ValueError)
  /\ (forall y,
         trim y <> [] ->
         exists out,
           List.length out = List.length (trim y)
           /\ preprocess_audio_writing trim sf_write (Py.Ok y)
              = match sf_write out with
                | Py.Ok _ => Wrote out
                | Py.Raise e => FellBack e
                end)
  /\ ((forall out, sf_write out = Py.Ok tt) ->
      forall loaded,
        preprocess_audio_writing trim sf_write loaded
        = preprocess_audio trim loaded).
Proof.
  split; [reflexivity|]. split; [|split].
  - intros y H. unfold preprocess_audio_writing. cbn [Py.bind].
    now rewrite H.
  - intros y H. unfold preprocess_audio_writing. cbn [Py.bind].
    destruct (np_max (np_abs (trim y))) as [peak|e] eqn:Ep.
    + cbn [Py.bind]. exists (np_div (trim y) peak).
      split; [unfold np_div; now rewrite length_map|].
      now destruct (sf_write (np_div (trim y) peak)).
    + exfalso. destruct (trim y); [congruence | discriminate].
  - intros Hw loaded. unfold preprocess_audio_writing, preprocess_audio.
    destruct loaded as [y|e]; cbn [Py.bind]; trivial.
    destruct (np_max (np_abs (trim y))) as [peak|e]; cbn [Py.bind]; trivial.
    now rewrite Hw.
Qed.

Lemma preprocess_falls_back_or_writes_witness :
  exists out : Buffer,
    List.length out = 2%nat
    /\ preprocess_audio_writing (fun y => y)
         (fun _ => Py.Raise Py.TypeError)
         (Py.Ok [0.5%float; (-0.25)%float])
       = FellBack Py.TypeError.
Proof.
  apply (proj1 (proj2 (proj2
           (preprocess_falls_back_or_writes (fun y => y)
              (fun _ => Py.Raise Py.TypeError))))
           [0.5%float; (-0.25)%float]).
  discriminate.
Defined.

End PreprocessMore.

(** ** More on what the mapping and the store do with their inputs *)

Module MappingMore.

Import Reconciler ReconcilerFacts SlotFacts.

(** Six of the seven canonical names, given back as a label, are mapped
    to their own slot; "Happiness" is not: its lowercased form holds
    neither "happy" nor "joy", so an entry labelled with the canonical
    name itself is discarded. *)
Theorem canonical_names_as_labels (e : Emotion) :
  map_label (label_of e)
  = match e with
    | Happiness => None
    | _ => Some e
    end.
Proof. destruct e; reflexivity. Qed.

Lemma last_score_unmapped (e : Emotion) (result : list Item) :
  (forall item, In item result -> map_label (fst item) <> Some e) ->
  last_score e result = None.
Proof.
  intro H. unfold last_score.
  apply (fold_left_inv _ (fun acc : option Q => acc = None)); trivial.
  intros acc item Hin ->. specialize (H item Hin).
  destruct (map_label (fst item)) as [e'|]; trivial.
  destruct (Emotion_eq_dec e e') as [->|]; [congruence | reflexivity].
Qed.

Lemma slot_total_single (e : Emotion) (result : list Item) :
  (forall e', e' <> e -> slot e' result = 0) ->
  slot_total result == slot e result.
Proof.
  intro H. unfold slot_total, EMOTION_CONFIG_keys. cbn [map].
  destruct e;
    repeat match goal with
           | |- context [slot ?e' result] =>
               lazymatch goal with
               | |- context [Py.py_sum] =>
                   first [ rewrite (H e' ltac:(discriminate)) | fail 1 ]
               end
           end;
    unfold Py.py_sum; cbn [fold_left]; ring.
Qed.

(** When all the matching labels of a result feed one slot and the score
    that slot ends with is positive, the returned dict gives that slot 1
    and every other slot 0, however small the score was. *)
Theorem single_slot_gets_everything (e : Emotion) (result : list Item) :
  (forall item, In item result ->
                map_label (fst item) = Some e
                \/ map_label (fst item) = None) ->
  0 < slot e result ->
  score e (reconcile result) == 1
  /\ forall e', e' <> e -> score e' (reconcile result) == 0.
Proof.
  intros Hone Hpos.
  assert (Hzero : forall e', e' <> e -> slot e' result = 0).
  { intros e' Hne. unfold slot. rewrite last_score_unmapped; trivial.
    intros item Hin Heq. destruct (Hone item Hin) as [H|H]; congruence. }
  assert (HT : Py.py_sum (PyDict.values (pre_normalize result))
               == slot e result)
    by (rewrite total_by_slots; now apply slot_total_single).
  assert (E : Py.Qltb 0 (Py.py_sum (PyDict.values (pre_normalize result)))
              = true)
    by (apply PyFacts.Qltb_lt; now rewrite HT).
  unfold score. split.
  - rewrite get_reconcile, E, HT. unfold Qdiv. apply Qmult_inv_r.
    intro H0. rewrite H0 in Hpos. exact (Qlt_irrefl 0 Hpos).
  - intros e' Hne. rewrite get_reconcile, E, (Hzero e' Hne).
    unfold Qdiv. apply Qmult_0_l.
Qed.

Lemma single_slot_gets_everything_witness :
  score Sadness (reconcile [("sad"%string, 0.01); ("calm"%string, 0.9)])
  == 1.
Proof.
  refine (proj1 (single_slot_gets_everything Sadness
                   [("sad"%string, 0.01); ("calm"%string, 0.9)] _ _)).
  - intros item [<-|[<-|[]]]; [left | right]; reflexivity.
  - reflexivity.
Defined.

End MappingMore.

Module IntensityMore.

Import Store StoreFacts.

(** A recording with its intensity put aside. *)
Definition without_intensity (r : Recording) : Recording :=
  {| timestamp := timestamp r;
     emotions := emotions r;
     dominant_emotion := dominant_emotion r;
     confidence := confidence r;
     intensity := 0;
     audio_path := audio_path r;
     language := language r |}.

(** The intensity slider is stored with the recording and changes
    nothing else: with two positions of the slider the step returns, and
    the stores it leaves hold the same vectors, dominant emotions and
    confidences. *)
Theorem intensity_changes_nothing_else
    (api : Py.res (list Reconciler.Item)) (path : string)
    (intensity1 intensity2 : Q) (now : string) (st : SessionState) :
  exists st1 st2,
    analyze api path intensity1 now st = Py.Ok st1
    /\ analyze api path intensity2 now st = Py.Ok st2
    /\ map without_intensity (recordings st1)
       = map without_intensity (recordings st2)
    /\ hf_token st1 = hf_token st2
    /\ selected_language st1 = selected_language st2.
Proof.
  unfold analyze, get_emotion_from_huggingface.
  destruct (String.eqb (hf_token st) ""); [now exists st, st|].
  destruct api as [result|e]; [|now exists st, st].
  rewrite reconcile_truthy.
  destruct (StoreMore.reconcile_cons result) as (kv & d & ->).
  rewrite !save_recording_nonempty. do 2 eexists.
  split; [reflexivity|]. split; [reflexivity|].
  cbn [recordings with_recordings hf_token selected_language].
  rewrite !map_app. repeat split.
Qed.

End IntensityMore.
